(** * Home security demo (ECE 425 final project): the Security state handler,
      the US-100 sensor link over UART1 and the button menu of main.c.

    The C program is embedded shallowly.  Every driver call that the core
    makes (LCD, LEDs, buzzer, SysTick delay, UART1 data register) is recorded
    as an event of a trace; the file-local statics of Security.c and of
    main.c are kept apart, as the two translation units keep them apart; the
    bytes the sensor will ever deliver are a list, and a receive on an empty
    list spins for ever. *)

From Stdlib Require Import ZArith List String Bool Lia.
Import ListNotations.
Open Scope string_scope.
Open Scope list_scope.
Open Scope Z_scope.

(** ** Driver constants *)

(** Modelled from the spec: the LED patterns [SetLeds(allOn|allOff)] of
    GPIO.h, whose numeric values are not part of the sources at hand. *)
Inductive led_pattern : Type :=
| EDUBASE_LED_ALL_OFF
| EDUBASE_LED_ALL_ON.

(** Modelled from the spec: the two tones [PlayTone(note, durationMs)] of
    Buzzer.h that the alert alternates between. *)
Inductive note : Type :=
| A4_NOTE
| G4_NOTE.

(** Modelled from the spec: the buzzer levels [SetBuzzer(on|off)], declared
    [extern const uint8_t] in Security.c and defined in Buzzer.c. *)
Inductive buzzer_level : Type :=
| BUZZER_OFF
| BUZZER_ON.

(** ** Observable events: one per driver call *)

Inductive Event : Type :=
| EduBase_LCD_Clear_Display
| EduBase_LCD_Set_Cursor (col row : Z)
| EduBase_LCD_Display_String (msg : string)
| EduBase_LEDs_Output (p : led_pattern)
| Play_Note (n : note) (duration_ms : Z)
| Buzzer_Output (b : buzzer_level)
| SysTick_Delay1ms (ms : Z)
| UART1_DR_write (data : Z)
| UART1_DR_read (data : Z)
| SysTick_Delay_Init
| EduBase_LCD_Init
| EduBase_LEDs_Init
| EduBase_Button_Init
| Buzzer_Init
| UART1_Init.

(** ** Program state *)

(** Both Security.c and main.c declare
    [static uint8_t system_armed = 0; static uint8_t alert_active = 0;].
    Having internal linkage, these are four distinct objects. *)
Record statics : Type := mkStatics {
  system_armed : Z;
  alert_active : Z
}.

Record State : Type := mkState {
  Security_c : statics;          (* the statics of Security.c *)
  main_c : statics;              (* the statics of main.c *)
  last_button_status : Z;        (* function-local static of Menu_Controller *)
  UART1_rx : list Z;             (* values UART1->DR will yield, oldest first *)
  trace : list Event             (* driver calls so far, oldest first *)
}.

Definition set_Security_c (v : statics) (s : State) : State :=
  mkState v (main_c s) (last_button_status s) (UART1_rx s) (trace s).

Definition set_main_c (v : statics) (s : State) : State :=
  mkState (Security_c s) v (last_button_status s) (UART1_rx s) (trace s).

Definition set_last_button_status (b : Z) (s : State) : State :=
  mkState (Security_c s) (main_c s) b (UART1_rx s) (trace s).

Definition set_UART1_rx (rx : list Z) (s : State) : State :=
  mkState (Security_c s) (main_c s) (last_button_status s) rx (trace s).

Definition emits (es : list Event) (s : State) : State :=
  mkState (Security_c s) (main_c s) (last_button_status s) (UART1_rx s)
          (trace s ++ es).

Definition set_system_armed (v : Z) (x : statics) : statics :=
  mkStatics v (alert_active x).

Definition set_alert_active (v : Z) (x : statics) : statics :=
  mkStatics (system_armed x) v.

(** ** Integer conversions of the C code *)

Definition cast_uint8 (z : Z) : Z := z mod 256.
Definition cast_uint16 (z : Z) : Z := z mod 65536.

(** Plain [char] is unsigned in the ARM procedure call standard the TM4C123
    toolchains follow. *)
Definition cast_char (z : Z) : Z := z mod 256.

(** What a toolchain with a signed plain [char] would compute instead. *)
Definition cast_signed_char (z : Z) : Z :=
  let u := z mod 256 in if u <? 128 then u else u - 256.

(** ** Outcomes and the execution monad *)

Inductive Outcome (A : Type) : Type :=
| Done (a : A) (s : State)      (* the call returned *)
| Blocked (s : State)           (* spinning on the receive FIFO for ever *)
| OutOfFuel (s : State).        (* the model ran out of loop fuel *)

Arguments Done {A} a s.
Arguments Blocked {A} s.
Arguments OutOfFuel {A} s.

Definition M (A : Type) : Type := State -> Outcome A.

Definition ret {A : Type} (a : A) : M A := fun s => Done a s.

Definition bind {A B : Type} (c : M A) (k : A -> M B) : M B :=
  fun s =>
    match c s with
    | Done a s' => k a s'
    | Blocked s' => Blocked s'
    | OutOfFuel s' => OutOfFuel s'
    end.

Declare Scope monad_scope.
Delimit Scope monad_scope with monad.
Notation "x <- c ;; k" := (bind c (fun x => k))
  (at level 61, c at next level, right associativity) : monad_scope.
Notation "c ;; k" := (bind c (fun _ => k))
  (at level 61, right associativity) : monad_scope.
Open Scope monad_scope.

Definition call (e : Event) : M unit := fun s => Done tt (emits [e] s).

Definition modify (f : State -> State) : M unit := fun s => Done tt (f s).

Definition gets {A : Type} (f : State -> A) : M A := fun s => Done (f s) s.

(** [for (int i = lo; i < hi; i++) body], the counter not written by the body. *)
Fixpoint for_count (n : nat) (i : Z) (body : Z -> M unit) : M unit :=
  match n with
  | O => ret tt
  | S n' => body i ;; for_count n' (i + 1) body
  end.

Definition for_range (lo hi : Z) (body : Z -> M unit) : M unit :=
  for_count (Z.to_nat (hi - lo)) lo body.

(** ** UART1.c *)

(** [while ((UART1->FR & RXFE) != 0); return (char)(UART1->DR & 0xFF);] *)
Definition UART1_Input_Character : M Z :=
  fun s =>
    match UART1_rx s with
    | [] => Blocked s
    | dr :: rest =>
        Done (cast_char (Z.land dr 0xFF))
             (emits [UART1_DR_read (Z.land dr 0xFF)] (set_UART1_rx rest s))
    end.

(** [while ((UART1->FR & TXFF) != 0); UART1->DR = data;]: the transmitter
    drains its FIFO on its own, the wait always ends. *)
Definition UART1_Output_Character (data : Z) : M unit :=
  call (UART1_DR_write data).

(** ** Security.c *)

Definition READ_DISTANCE : Z := 0x55.

Definition Get_Distance : M Z :=
  UART1_Output_Character READ_DISTANCE ;;
  c1 <- UART1_Input_Character ;;
  let high_byte := cast_uint8 c1 in
  c2 <- UART1_Input_Character ;;
  let low_byte := cast_uint8 c2 in
  let distance := cast_uint16 (Z.lor (Z.shiftl high_byte 8) low_byte) in
  ret distance.

Definition Display_Main_Menu : M unit :=
  call EduBase_LCD_Clear_Display ;;
  call (EduBase_LCD_Set_Cursor 0 0) ;;
  call (EduBase_LCD_Display_String "Arm System") ;;
  call (EduBase_LCD_Set_Cursor 0 1) ;;
  call (EduBase_LCD_Display_String "Disarm System").

Definition Intruder_Alert : M unit :=
  call EduBase_LCD_Clear_Display ;;
  call (EduBase_LCD_Set_Cursor 0 0) ;;
  call (EduBase_LCD_Display_String "Intruder") ;;
  call (EduBase_LCD_Set_Cursor 0 1) ;;
  call (EduBase_LCD_Display_String "Detected") ;;
  call (SysTick_Delay1ms 3000) ;;
  for_range 0 10 (fun _ =>
    call (EduBase_LEDs_Output EDUBASE_LED_ALL_ON) ;;
    call (Play_Note A4_NOTE 50) ;;
    call (SysTick_Delay1ms 250) ;;
    call (EduBase_LEDs_Output EDUBASE_LED_ALL_OFF) ;;
    call (Play_Note G4_NOTE 50) ;;
    call (SysTick_Delay1ms 250)) ;;
  modify (fun s => set_Security_c (set_alert_active 0 (Security_c s)) s) ;;
  modify (fun s => set_Security_c (set_system_armed 0 (Security_c s)) s) ;;
  call (EduBase_LEDs_Output EDUBASE_LED_ALL_OFF) ;;
  call (Buzzer_Output BUZZER_OFF) ;;
  Display_Main_Menu.

Definition Display_Status (message : string) : M unit :=
  call EduBase_LCD_Clear_Display ;;
  call (EduBase_LCD_Set_Cursor 0 0) ;;
  call (EduBase_LCD_Display_String message) ;;
  call (SysTick_Delay1ms 3000).

(** [while (system_armed && !alert_active)] over the statics of Security.c. *)
Definition monitoring (s : State) : bool :=
  negb (system_armed (Security_c s) =? 0) && (alert_active (Security_c s) =? 0).

Definition within_threshold (distance : Z) : bool :=
  (0 <? distance) && (distance <=? 50).

Fixpoint System_Armed_while (fuel : nat) : M unit :=
  fun s =>
    if monitoring s then
      match fuel with
      | O => OutOfFuel s
      | S fuel' =>
          (distance <- Get_Distance ;;
           (if within_threshold distance then
              modify (fun s => set_Security_c (set_alert_active 1 (Security_c s)) s) ;;
              Intruder_Alert
            else ret tt) ;;
           call (SysTick_Delay1ms 100) ;;
           System_Armed_while fuel') s
      end
    else Done tt s.

Definition System_Armed (fuel : nat) : M unit :=
  modify (fun s => set_Security_c (set_alert_active 0 (Security_c s)) s) ;;
  System_Armed_while fuel ;;
  armed <- gets (fun s => system_armed (Security_c s)) ;;
  if armed =? 0 then Display_Main_Menu else ret tt.

(** ** main.c *)

(** The four [case] bodies of the [switch] in Menu_Controller, each up to its
    [break]; they read and write the statics of main.c. *)
Definition case_SW2 (fuel : nat) : M unit :=
  armed <- gets (fun s => system_armed (main_c s)) ;;
  (if armed =? 0 then
     modify (fun s => set_main_c (set_system_armed 1 (main_c s)) s) ;;
     Display_Status "System Armed" ;;
     System_Armed fuel
   else
     Display_Status "Already Armed") ;;
  Display_Main_Menu.

Definition case_SW3 : M unit :=
  armed <- gets (fun s => system_armed (main_c s)) ;;
  (if negb (armed =? 0) then
     modify (fun s => set_main_c (set_system_armed 0 (main_c s)) s) ;;
     Display_Status "System Disarmed"
   else
     Display_Status "Already Disarmed") ;;
  Display_Main_Menu.

Definition case_SW5 : M unit := Intruder_Alert.

Definition case_SW4 : M unit :=
  call EduBase_LCD_Clear_Display ;;
  Display_Main_Menu ;;
  call (SysTick_Delay1ms 20).

Definition Menu_Controller (fuel : nat) (button_status : Z) : M unit :=
  last <- gets last_button_status ;;
  if negb (button_status =? last) then
    modify (set_last_button_status button_status) ;;
    if button_status =? 0x08 then case_SW2 fuel
    else if button_status =? 0x04 then case_SW3
    else if button_status =? 0x01 then case_SW5
    else if button_status =? 0x02 then case_SW4
    else ret tt
  else ret tt.

(** One turn of [while (1)] in [main], given what
    [Get_EduBase_Button_Status] returned (a [uint8_t]). *)
Definition main_iteration (fuel : nat) (sample : Z) : M unit :=
  let edubase_button_status := cast_uint8 sample in
  Menu_Controller fuel edubase_button_status ;;
  call (SysTick_Delay1ms 10).

Fixpoint main_while (fuel : nat) (samples : list Z) : M unit :=
  match samples with
  | [] => ret tt
  | b :: samples' => main_iteration fuel b ;; main_while fuel samples'
  end.

(** [main] up to its endless loop. *)
Definition main_prologue : M unit :=
  call SysTick_Delay_Init ;;
  call EduBase_LCD_Init ;;
  call EduBase_LEDs_Init ;;
  call EduBase_Button_Init ;;
  call Buzzer_Init ;;
  call UART1_Init ;;
  call (SysTick_Delay1ms 100) ;;
  Display_Main_Menu ;;
  call (EduBase_LEDs_Output EDUBASE_LED_ALL_OFF).

(** The state at reset: every static is zero-initialised; [rx] is what the
    sensor is going to send. *)
Definition reset (rx : list Z) : State :=
  mkState (mkStatics 0 0) (mkStatics 0 0) 0 rx [].

Definition main (fuel : nat) (samples : list Z) : M unit :=
  main_prologue ;; main_while fuel samples.

(** ** Traces of the straight-line routines *)

Definition main_menu_trace : list Event :=
  [ EduBase_LCD_Clear_Display;
    EduBase_LCD_Set_Cursor 0 0; EduBase_LCD_Display_String "Arm System";
    EduBase_LCD_Set_Cursor 0 1; EduBase_LCD_Display_String "Disarm System" ].

Definition status_trace (message : string) : list Event :=
  [ EduBase_LCD_Clear_Display;
    EduBase_LCD_Set_Cursor 0 0; EduBase_LCD_Display_String message;
    SysTick_Delay1ms 3000 ].

Definition alert_banner : list Event :=
  [ EduBase_LCD_Clear_Display;
    EduBase_LCD_Set_Cursor 0 0; EduBase_LCD_Display_String "Intruder";
    EduBase_LCD_Set_Cursor 0 1; EduBase_LCD_Display_String "Detected";
    SysTick_Delay1ms 3000 ].

Definition alert_cycle : list Event :=
  [ EduBase_LEDs_Output EDUBASE_LED_ALL_ON; Play_Note A4_NOTE 50;
    SysTick_Delay1ms 250;
    EduBase_LEDs_Output EDUBASE_LED_ALL_OFF; Play_Note G4_NOTE 50;
    SysTick_Delay1ms 250 ].

Fixpoint times (n : nat) (es : list Event) : list Event :=
  match n with
  | O => []
  | S n' => es ++ times n' es
  end.

Definition alert_epilogue : list Event :=
  [ EduBase_LEDs_Output EDUBASE_LED_ALL_OFF; Buzzer_Output BUZZER_OFF ]
  ++ main_menu_trace.

Definition alert_trace : list Event :=
  alert_banner ++ times 10 alert_cycle ++ alert_epilogue.

(** The state in which [Intruder_Alert] returns. *)
Definition after_alert (s : State) : State :=
  emits alert_trace (set_Security_c (mkStatics 0 0) s).

(** ** Reading traces *)

Definition is_alert_banner (e : Event) : bool :=
  match e with
  | EduBase_LCD_Display_String msg => String.eqb msg "Intruder"
  | _ => false
  end.

(** How often the alert sequence was started. *)
Definition alert_invocations (tr : list Event) : nat :=
  List.length (filter is_alert_banner tr).

Definition is_sensor_query (e : Event) : bool :=
  match e with
  | UART1_DR_write _ => true
  | _ => false
  end.

(** How often the sensor was polled. *)
Definition sensor_polls (tr : list Event) : nat :=
  List.length (filter is_sensor_query tr).

Definition is_all_on (e : Event) : bool :=
  match e with
  | EduBase_LEDs_Output EDUBASE_LED_ALL_ON => true
  | _ => false
  end.

(** ** Notions used to state the properties *)

(** The 16-bit value [Get_Distance] assembles from two data-register reads. *)
Definition distance_of (dr1 dr2 : Z) : Z :=
  Z.lor (Z.shiftl (Z.land dr1 0xFF) 8) (Z.land dr2 0xFF).

Definition poll_trace (dr1 dr2 : Z) : list Event :=
  [ UART1_DR_write 0x55;
    UART1_DR_read (Z.land dr1 0xFF);
    UART1_DR_read (Z.land dr2 0xFF) ].

(** Sensor answers, as pairs of data-register values, and how they arrive. *)
Fixpoint wire (answers : list (Z * Z)) : list Z :=
  match answers with
  | [] => []
  | (dr1, dr2) :: answers' => dr1 :: dr2 :: wire answers'
  end.

(** Trace of loop turns whose reading stays outside the threshold. *)
Fixpoint quiet_polls (answers : list (Z * Z)) : list Event :=
  match answers with
  | [] => []
  | (dr1, dr2) :: answers' =>
      poll_trace dr1 dr2 ++ [SysTick_Delay1ms 100] ++ quiet_polls answers'
  end.

Definition quiet (answer : Z * Z) : Prop :=
  within_threshold (distance_of (fst answer) (snd answer)) = false.

(** The [switch] proper, entered once the new mask has been stored. *)
Definition dispatch (fuel : nat) (button_status : Z) : M unit :=
  if button_status =? 0x08 then case_SW2 fuel
  else if button_status =? 0x04 then case_SW3
  else if button_status =? 0x01 then case_SW5
  else if button_status =? 0x02 then case_SW4
  else ret tt.

(** The states in which [main] samples the buttons: after the prologue, and
    after every completed turn of its loop. *)
Inductive Reachable : State -> Prop :=
| Reachable_boot (rx : list Z) (s : State) :
    main_prologue (reset rx) = Done tt s -> Reachable s
| Reachable_turn (fuel : nat) (sample : Z) (s s' : State) :
    Reachable s -> main_iteration fuel sample s = Done tt s' -> Reachable s'.

(** What holds of every reachable state: the statics of Security.c are
    clear, no alert flag is up, the sensor was never queried. *)
Definition quiescent (s : State) : Prop :=
  Security_c s = mkStatics 0 0 /\
  alert_active (main_c s) = 0 /\
  sensor_polls (trace s) = 0%nat.

Definition booted (rx : list Z) : State :=
  emits ([ SysTick_Delay_Init; EduBase_LCD_Init; EduBase_LEDs_Init;
           EduBase_Button_Init; Buzzer_Init; UART1_Init;
           SysTick_Delay1ms 100 ]
         ++ main_menu_trace ++ [EduBase_LEDs_Output EDUBASE_LED_ALL_OFF])
        (reset rx).

(** How many alert sequences a button mask starts when it is dispatched. *)
Definition alerts_of (button_status : Z) : nat :=
  if button_status =? 0x01 then 1%nat else 0%nat.

(** Alert sequences started by the masks sampled in turn, [last] being the
    mask stored before the first of them. *)
Fixpoint trigger_edges (last : Z) (samples : list Z) : nat :=
  match samples with
  | [] => 0%nat
  | sample :: samples' =>
      let b := cast_uint8 sample in
      ((if (b =? last)%Z then 0 else alerts_of b) + trigger_edges b samples')%nat
  end.

Definition keeps_last {A : Type} (c : M A) : Prop :=
  forall (s : State) (a : A) (s' : State),
    c s = Done a s' -> last_button_status s' = last_button_status s.

(** [n] further turns of the main loop in which nothing but the 10 ms delay
    happens. *)
Definition idle_turns (n : nat) (s : State) : State :=
  emits (times n [SysTick_Delay1ms 10]) s.

Definition not_arm (sample : Z) : Prop := cast_uint8 sample <> 0x08.

(** Armed: either translation unit has its armed flag up. *)
Definition Armed (s : State) : Prop :=
  system_armed (main_c s) <> 0 \/ system_armed (Security_c s) <> 0.

(** Disarmed: both armed flags are down. *)
Definition Disarmed (s : State) : Prop :=
  system_armed (main_c s) = 0 /\ system_armed (Security_c s) = 0.

(** A turn of the main loop enters Alerting when it starts an alert
    sequence. *)
Definition enters_Alerting (fuel : nat) (sample : Z) (s : State) : Prop :=
  exists s', main_iteration fuel sample s = Done tt s' /\
             (alert_invocations (trace s) < alert_invocations (trace s'))%nat.

(** The specification's invariant on how Alerting is entered, in its own
    words: only ever from Armed. *)
Definition Alerting_only_from_Armed : Prop :=
  forall (fuel : nat) (sample : Z) (s : State),
    Reachable s -> enters_Alerting fuel sample s -> Armed s.

(** ** Notions for the further properties *)

Definition cast_uint32 (z : Z) : Z := z mod 4294967296.

(** The armed flag of main.c and the stored mask, as a pure automaton over
    the sampled masks. *)
Definition menu_step (st : Z * Z) (sample : Z) : Z * Z :=
  let '(armed, last) := st in
  let b := cast_uint8 sample in
  if b =? last then (armed, last)
  else if b =? 0x08 then (if armed =? 0 then 1 else armed, b)
  else if b =? 0x04 then (0, b)
  else (armed, b).

(** The traces one turn of the main loop can add. *)
Definition turn_traces : list (list Event) :=
  [ [SysTick_Delay1ms 10];
    status_trace "System Armed" ++ main_menu_trace ++ main_menu_trace
      ++ [SysTick_Delay1ms 10];
    status_trace "Already Armed" ++ main_menu_trace ++ [SysTick_Delay1ms 10];
    status_trace "System Disarmed" ++ main_menu_trace ++ [SysTick_Delay1ms 10];
    status_trace "Already Disarmed" ++ main_menu_trace ++ [SysTick_Delay1ms 10];
    alert_trace ++ [SysTick_Delay1ms 10];
    (EduBase_LCD_Clear_Display :: main_menu_trace ++ [SysTick_Delay1ms 20])
      ++ [SysTick_Delay1ms 10] ].

(** Milliseconds spent in [SysTick_Delay1ms]. *)
Fixpoint delay_ms (tr : list Event) : Z :=
  match tr with
  | [] => 0
  | SysTick_Delay1ms ms :: tr' => ms + delay_ms tr'
  | _ :: tr' => delay_ms tr'
  end.

(** The pattern the LEDs were last set to. *)
Fixpoint last_leds (tr : list Event) : option led_pattern :=
  match tr with
  | [] => None
  | e :: tr' =>
      match last_leds tr' with
      | Some p => Some p
      | None => match e with EduBase_LEDs_Output p => Some p | _ => None end
      end
  end.

Definition is_lcd (e : Event) : bool :=
  match e with
  | EduBase_LCD_Clear_Display => true
  | EduBase_LCD_Set_Cursor _ _ => true
  | EduBase_LCD_Display_String _ => true
  | _ => false
  end.

(** The LCD calls of a trace, oldest first. *)
Definition lcd_calls (tr : list Event) : list Event := filter is_lcd tr.

(** The last LCD calls drew the main menu. *)
Definition shows_main_menu (tr : list Event) : Prop :=
  exists before, lcd_calls tr = before ++ main_menu_trace.

(** ** UART1.c: the registers written by the initialisation *)

Module UART1_c.

(** The registers [UART1_Init] touches, each a 32-bit word that reads back
    what was last written to it. *)
Record registers : Type := mkRegisters {
  SYSCTL_RCGCUART : Z;
  SYSCTL_RCGCGPIO : Z;
  UART1_CTL : Z;
  UART1_IBRD : Z;
  UART1_FBRD : Z;
  UART1_LCRH : Z;
  GPIOC_AFSEL : Z;
  GPIOC_PCTL : Z;
  GPIOC_DEN : Z
}.

Definition set_SYSCTL_RCGCUART (v : Z) (r : registers) : registers :=
  mkRegisters v (SYSCTL_RCGCGPIO r) (UART1_CTL r) (UART1_IBRD r) (UART1_FBRD r)
    (UART1_LCRH r) (GPIOC_AFSEL r) (GPIOC_PCTL r) (GPIOC_DEN r).

Definition set_SYSCTL_RCGCGPIO (v : Z) (r : registers) : registers :=
  mkRegisters (SYSCTL_RCGCUART r) v (UART1_CTL r) (UART1_IBRD r) (UART1_FBRD r)
    (UART1_LCRH r) (GPIOC_AFSEL r) (GPIOC_PCTL r) (GPIOC_DEN r).

Definition set_UART1_CTL (v : Z) (r : registers) : registers :=
  mkRegisters (SYSCTL_RCGCUART r) (SYSCTL_RCGCGPIO r) v (UART1_IBRD r)
    (UART1_FBRD r) (UART1_LCRH r) (GPIOC_AFSEL r) (GPIOC_PCTL r) (GPIOC_DEN r).

Definition set_UART1_IBRD (v : Z) (r : registers) : registers :=
  mkRegisters (SYSCTL_RCGCUART r) (SYSCTL_RCGCGPIO r) (UART1_CTL r) v
    (UART1_FBRD r) (UART1_LCRH r) (GPIOC_AFSEL r) (GPIOC_PCTL r) (GPIOC_DEN r).

Definition set_UART1_FBRD (v : Z) (r : registers) : registers :=
  mkRegisters (SYSCTL_RCGCUART r) (SYSCTL_RCGCGPIO r) (UART1_CTL r)
    (UART1_IBRD r) v (UART1_LCRH r) (GPIOC_AFSEL r) (GPIOC_PCTL r) (GPIOC_DEN r).

Definition set_UART1_LCRH (v : Z) (r : registers) : registers :=
  mkRegisters (SYSCTL_RCGCUART r) (SYSCTL_RCGCGPIO r) (UART1_CTL r)
    (UART1_IBRD r) (UART1_FBRD r) v (GPIOC_AFSEL r) (GPIOC_PCTL r) (GPIOC_DEN r).

Definition set_GPIOC_AFSEL (v : Z) (r : registers) : registers :=
  mkRegisters (SYSCTL_RCGCUART r) (SYSCTL_RCGCGPIO r) (UART1_CTL r)
    (UART1_IBRD r) (UART1_FBRD r) (UART1_LCRH r) v (GPIOC_PCTL r) (GPIOC_DEN r).

Definition set_GPIOC_PCTL (v : Z) (r : registers) : registers :=
  mkRegisters (SYSCTL_RCGCUART r) (SYSCTL_RCGCGPIO r) (UART1_CTL r)
    (UART1_IBRD r) (UART1_FBRD r) (UART1_LCRH r) (GPIOC_AFSEL r) v (GPIOC_DEN r).

Definition set_GPIOC_DEN (v : Z) (r : registers) : registers :=
  mkRegisters (SYSCTL_RCGCUART r) (SYSCTL_RCGCGPIO r) (UART1_CTL r)
    (UART1_IBRD r) (UART1_FBRD r) (UART1_LCRH r) (GPIOC_AFSEL r) (GPIOC_PCTL r) v.

(** [reg |= mask] on a [uint32_t]. *)
Definition or_assign (reg mask : Z) : Z := cast_uint32 (Z.lor reg mask).

(** [reg &= ~mask] on a [uint32_t]: the complement is taken at 32 bits. *)
Definition and_not_assign (reg mask : Z) : Z :=
  cast_uint32 (Z.land reg (cast_uint32 (Z.lnot mask))).

Definition UART1_Init (r : registers) : registers :=
  let r := set_SYSCTL_RCGCUART (or_assign (SYSCTL_RCGCUART r) 0x02) r in
  let r := set_SYSCTL_RCGCGPIO (or_assign (SYSCTL_RCGCGPIO r) 0x04) r in
  let r := set_UART1_CTL (and_not_assign (UART1_CTL r) 0x01) r in
  let r := set_UART1_IBRD (cast_uint32 325) r in
  let r := set_UART1_FBRD (cast_uint32 33) r in
  let r := set_UART1_LCRH (or_assign (UART1_LCRH r) 0x60) r in
  let r := set_UART1_LCRH (or_assign (UART1_LCRH r) 0x10) r in
  let r := set_UART1_LCRH (and_not_assign (UART1_LCRH r) 0x08) r in
  let r := set_UART1_LCRH (and_not_assign (UART1_LCRH r) 0x02) r in
  let r := set_UART1_CTL (or_assign (UART1_CTL r) 0x01) r in
  let r := set_GPIOC_AFSEL (or_assign (GPIOC_AFSEL r) 0xA0) r in
  let r := set_GPIOC_PCTL (and_not_assign (GPIOC_PCTL r) 0xF00F0000) r in
  let r := set_GPIOC_PCTL (or_assign (GPIOC_PCTL r) 0x20002000) r in
  set_GPIOC_DEN (or_assign (GPIOC_DEN r) 0xA0) r.

(** Every register holds a 32-bit value. *)
Definition in_range (r : registers) : Prop :=
  (0 <= SYSCTL_RCGCUART r < 4294967296) /\
  (0 <= SYSCTL_RCGCGPIO r < 4294967296) /\
  (0 <= UART1_CTL r < 4294967296) /\
  (0 <= UART1_IBRD r < 4294967296) /\
  (0 <= UART1_FBRD r < 4294967296) /\
  (0 <= UART1_LCRH r < 4294967296) /\
  (0 <= GPIOC_AFSEL r < 4294967296) /\
  (0 <= GPIOC_PCTL r < 4294967296) /\
  (0 <= GPIOC_DEN r < 4294967296).

(** The four-bit port-mux field of pin [pin] in GPIOC->PCTL. *)
Definition PMC (pin : Z) (pctl : Z) : Z := Z.land (Z.shiftr pctl (4 * pin)) 0xF.

(** *** The string routines *)

(** Memory as seen through a [char *]: a character at every address. *)
Definition memory : Type := Z -> Z.

(** [*p = v]. *)
Definition store (m : memory) (p v : Z) : memory :=
  fun q => if q =? p then v else m q.

(** The memory the routine writes through [buffer_pointer], and its locals. *)
Record locals : Type := mkLocals {
  mem : memory;
  buffer_pointer : Z;
  length : Z;
  string_size : Z
}.

Section Control_characters.

(** The macros [UART1_CR] and [UART1_BS] of UART1.h, a header that is not
    among the sources at hand. *)
Variables UART1_CR UART1_BS : Z.

(** The body of the [while] loop of [UART1_Input_String], up to the read of
    the next character. *)
Definition UART1_Input_String_body (buffer_size character : Z) (l : locals)
  : M locals :=
  if character =? UART1_BS then
    if negb (length l =? 0) then
      let l := mkLocals (mem l) (buffer_pointer l - 1) (length l) (string_size l) in
      let l := mkLocals (mem l) (buffer_pointer l) (length l - 1) (string_size l) in
      UART1_Output_Character (cast_char UART1_BS) ;;
      ret l
    else ret l
  else if length l <? buffer_size then
    let l := mkLocals (store (mem l) (buffer_pointer l) character)
                      (buffer_pointer l) (length l) (string_size l) in
    let l := mkLocals (mem l) (buffer_pointer l + 1) (length l) (string_size l) in
    let l := mkLocals (mem l) (buffer_pointer l) (length l + 1) (string_size l) in
    let l := mkLocals (mem l) (buffer_pointer l) (length l)
                      (cast_uint32 (string_size l + 1)) in
    ret l
  else ret l.

Fixpoint UART1_Input_String_while (fuel : nat) (buffer_size character : Z)
  (l : locals) : M locals :=
  if negb (character =? UART1_CR) then
    match fuel with
    | O => fun s => OutOfFuel s
    | S fuel' =>
        l' <- UART1_Input_String_body buffer_size character l ;;
        character' <- UART1_Input_Character ;;
        UART1_Input_String_while fuel' buffer_size character' l'
    end
  else ret l.

(** Called with [buffer] for [buffer_pointer]; returns [string_size] and the
    memory as the routine leaves it. *)
Definition UART1_Input_String (fuel : nat) (m : memory)
  (buffer buffer_size : Z) : M (Z * memory) :=
  let buffer_size := cast_uint16 buffer_size in
  let l := mkLocals m buffer 0 0 in
  character <- UART1_Input_Character ;;
  l <- UART1_Input_String_while fuel buffer_size character l ;;
  let m := store (mem l) (buffer_pointer l) 0 in
  ret (string_size l, m).

End Control_characters.

Fixpoint UART1_Output_String (fuel : nat) (m : memory) (pt : Z) : M unit :=
  if negb (m pt =? 0) then
    match fuel with
    | O => fun s => OutOfFuel s
    | S fuel' =>
        UART1_Output_Character (m pt) ;;
        UART1_Output_String fuel' m (pt + 1)
    end
  else ret tt.

End UART1_c.

(** ** Notions for the string routines *)

(** The character [UART1_Input_Character] makes of a data-register value. *)
Definition received (dr : Z) : Z := Z.land dr 0xFF.

(** The line editor behind [UART1_Input_String]: the text kept after one more
    character, [BS] being the backspace and [cap] the buffer size. *)
Definition type_char (BS cap : Z) (text : list Z) (c : Z) : list Z :=
  if c =? BS then removelast text
  else if Z.of_nat (List.length text) <? cap then text ++ [c]
  else text.

Definition typed (BS cap : Z) (text : list Z) (cs : list Z) : list Z :=
  fold_left (type_char BS cap) cs text.

(** Characters taken into the buffer while typing [cs] onto [text]. *)
Fixpoint accepted (BS cap : Z) (text : list Z) (cs : list Z) : Z :=
  match cs with
  | [] => 0
  | c :: cs' =>
      (if negb (c =? BS) && (Z.of_nat (List.length text) <? cap) then 1 else 0)
      + accepted BS cap (type_char BS cap text c) cs'
  end.

(** Characters taken back out of the buffer while typing [cs] onto [text]. *)
Fixpoint erased (BS cap : Z) (text : list Z) (cs : list Z) : nat :=
  match cs with
  | [] => 0%nat
  | c :: cs' =>
      ((if ((c =? BS) && negb (Z.of_nat (List.length text) =? 0))%Z then 1 else 0)
       + erased BS cap (type_char BS cap text c) cs')%nat
  end.

(** The trace of reading the data-register values [line] one by one, each
    effective backspace being echoed before the next read. *)
Fixpoint line_trace (BS cap : Z) (text : list Z) (line : list Z) : list Event :=
  match line with
  | [] => []
  | dr :: line' =>
      let c := received dr in
      UART1_DR_read c
      :: (if (c =? BS) && negb (Z.of_nat (List.length text) =? 0)
          then [UART1_DR_write (cast_char BS)] else [])
      ++ line_trace BS cap (type_char BS cap text c) line'
  end.

(** The values written to the data register, oldest first. *)
Fixpoint sent (tr : list Event) : list Z :=
  match tr with
  | [] => []
  | UART1_DR_write data :: tr' => data :: sent tr'
  | _ :: tr' => sent tr'
  end.

(** [text] sits in memory from address [p] on. *)
Definition holds_text (m : UART1_c.memory) (p : Z) (text : list Z) : Prop :=
  forall i : nat, (i < List.length text)%nat -> m (p + Z.of_nat i) = nth i text 0.

(** What the loop of [UART1_Input_String] keeps true: the locals describe
    [text], stored from [p] on, within [cap] characters, in a memory that
    agrees with [m0] outside them, [k] characters having been counted. *)
Definition editing (m0 : UART1_c.memory) (p cap : Z) (l : UART1_c.locals)
  (text : list Z) (k : Z) : Prop :=
  UART1_c.length l = Z.of_nat (List.length text) /\
  UART1_c.buffer_pointer l = p + UART1_c.length l /\
  UART1_c.length l <= cap /\
  holds_text (UART1_c.mem l) p text /\
  (forall q, q < p \/ p + cap <= q -> UART1_c.mem l q = m0 q) /\
  UART1_c.string_size l = cast_uint32 k.

(** ** Basic facts *)

Lemma emits_emits (a b : list Event) (s : State) :
  emits b (emits a s) = emits (a ++ b) s.
Proof.
  unfold emits; simpl. now rewrite app_assoc.
Qed.

Lemma emits_nil (s : State) : emits [] s = s.
Proof.
  destruct s; unfold emits; simpl. now rewrite app_nil_r.
Qed.

Lemma bind_Done {A B : Type} (c : M A) (k : A -> M B) (s s' : State) (a : A) :
  c s = Done a s' -> bind c k s = k a s'.
Proof.
  intros H. unfold bind. now rewrite H.
Qed.

Lemma call_runs (e : Event) (s : State) : call e s = Done tt (emits [e] s).
Proof. reflexivity. Qed.

Ltac run_calls :=
  repeat (erewrite bind_Done by (apply call_runs)); try rewrite call_runs;
  repeat rewrite emits_emits; cbn [app].

Lemma Display_Main_Menu_runs (s : State) :
  Display_Main_Menu s = Done tt (emits main_menu_trace s).
Proof.
  unfold Display_Main_Menu. run_calls. reflexivity.
Qed.

Lemma Display_Status_runs (message : string) (s : State) :
  Display_Status message s = Done tt (emits (status_trace message) s).
Proof.
  unfold Display_Status. run_calls. reflexivity.
Qed.

Lemma for_count_emits (es : list Event) (body : Z -> M unit) :
  (forall i s, body i s = Done tt (emits es s)) ->
  forall n i s,
    for_count n i body s = Done tt (emits (times n es) s).
Proof.
  intros Hbody. induction n as [|n IH]; intros i s; cbn [for_count times].
  - unfold ret. now rewrite emits_nil.
  - erewrite bind_Done by (apply Hbody). rewrite IH. now rewrite emits_emits.
Qed.

Lemma Intruder_Alert_runs (s : State) :
  Intruder_Alert s = Done tt (after_alert s).
Proof.
  unfold Intruder_Alert.
  do 6 (erewrite bind_Done by (apply call_runs)).
  erewrite bind_Done.
  2:{ unfold for_range. apply (for_count_emits alert_cycle).
      intros i s0. run_calls. reflexivity. }
  unfold modify at 1 2. unfold bind at 1 2.
  do 2 (erewrite bind_Done by (apply call_runs)).
  rewrite Display_Main_Menu_runs.
  repeat rewrite emits_emits.
  unfold after_alert, alert_trace, alert_epilogue, alert_banner.
  destruct s as [sec mn last rx tr]. unfold emits, set_Security_c, set_alert_active, set_system_armed.
  cbn -[times]. repeat rewrite <- app_assoc. reflexivity.
Qed.

(** ** Integer facts behind [Get_Distance] *)

Lemma land_0xFF_range (z : Z) : 0 <= Z.land z 0xFF < 256.
Proof.
  change 0xFF with (Z.ones 8). rewrite Z.land_ones by lia.
  change (2 ^ 8) with 256. apply Z.mod_pos_bound. lia.
Qed.

Lemma cast_uint8_char (z : Z) :
  cast_uint8 (cast_char (Z.land z 0xFF)) = Z.land z 0xFF.
Proof.
  unfold cast_uint8, cast_char.
  pose proof (land_0xFF_range z) as H.
  now rewrite !(Z.mod_small (Z.land z 0xFF)) by lia.
Qed.

(** The narrowing to [uint8_t] hides the signedness of plain [char]. *)
Lemma cast_uint8_signed_char (z : Z) :
  cast_uint8 (cast_signed_char z) = cast_uint8 (cast_char z).
Proof.
  unfold cast_uint8, cast_signed_char, cast_char.
  rewrite Z.mod_mod by lia.
  destruct (z mod 256 <? 128); [now rewrite Z.mod_mod by lia|].
  replace (z mod 256 - 256) with (z mod 256 + (-1) * 256) by lia.
  rewrite Z.mod_add by lia. now rewrite Z.mod_mod by lia.
Qed.

Lemma byte_high_bits (lo n : Z) : 0 <= lo < 256 -> 8 <= n -> Z.testbit lo n = false.
Proof.
  intros Hlo Hn.
  rewrite <- (Z.mod_small lo (2 ^ 8)) by (change (2 ^ 8) with 256; lia).
  apply Z.mod_pow2_bits_high. lia.
Qed.

Lemma big_endian_pair (hi lo : Z) :
  0 <= hi < 256 -> 0 <= lo < 256 ->
  Z.lor (Z.shiftl hi 8) lo = 256 * hi + lo.
Proof.
  intros Hhi Hlo.
  assert (Hdisj : Z.land (Z.shiftl hi 8) lo = 0).
  { apply Z.bits_inj'. intros n Hn.
    rewrite Z.land_spec, Z.bits_0.
    destruct (Z_lt_le_dec n 8) as [Hlt|Hge].
    - rewrite Z.shiftl_spec_low by lia. reflexivity.
    - rewrite (byte_high_bits lo n) by lia. apply andb_false_r. }
  rewrite <- Z.lxor_lor by exact Hdisj.
  rewrite <- Z.add_nocarry_lxor by exact Hdisj.
  rewrite Z.shiftl_mul_pow2 by lia. change (2 ^ 8) with 256. lia.
Qed.

Lemma distance_of_big_endian (dr1 dr2 : Z) :
  distance_of dr1 dr2 = 256 * Z.land dr1 0xFF + Z.land dr2 0xFF.
Proof.
  unfold distance_of. apply big_endian_pair; apply land_0xFF_range.
Qed.

Lemma distance_of_range (dr1 dr2 : Z) : 0 <= distance_of dr1 dr2 < 65536.
Proof.
  rewrite distance_of_big_endian.
  pose proof (land_0xFF_range dr1). pose proof (land_0xFF_range dr2). lia.
Qed.

Lemma Get_Distance_runs (dr1 dr2 : Z) (rest : list Z) (s : State) :
  UART1_rx s = dr1 :: dr2 :: rest ->
  Get_Distance s =
    Done (distance_of dr1 dr2)
         (emits [ UART1_DR_write 0x55;
                  UART1_DR_read (Z.land dr1 0xFF);
                  UART1_DR_read (Z.land dr2 0xFF) ]
                (set_UART1_rx rest s)).
Proof.
  intros Hrx. unfold Get_Distance, UART1_Output_Character.
  erewrite bind_Done by (apply call_runs).
  unfold bind, UART1_Input_Character, ret.
  cbn [UART1_rx emits]. rewrite Hrx. cbn [UART1_rx emits set_UART1_rx].
  rewrite !cast_uint8_char.
  fold (distance_of dr1 dr2).
  unfold cast_uint16. rewrite Z.mod_small by (apply distance_of_range).
  f_equal. unfold emits, set_UART1_rx; cbn.
  rewrite <- !app_assoc. reflexivity.
Qed.

Lemma Get_Distance_starved (s : State) :
  (List.length (UART1_rx s) < 2)%nat ->
  exists s', Get_Distance s = Blocked s'.
Proof.
  intros Hlen. unfold Get_Distance, UART1_Output_Character.
  erewrite bind_Done by (apply call_runs).
  unfold bind, UART1_Input_Character.
  cbn [UART1_rx emits].
  destruct (UART1_rx s) as [|dr1 [|dr2 rest]]; cbn [UART1_rx emits set_UART1_rx].
  - eexists; reflexivity.
  - eexists; reflexivity.
  - cbn in Hlen. lia.
Qed.

(** ** The monitoring loop *)

Lemma within_threshold_iff (d : Z) :
  within_threshold d = true <-> 0 < d <= 50.
Proof.
  unfold within_threshold. rewrite andb_true_iff, Z.ltb_lt, Z.leb_le. tauto.
Qed.

Lemma System_Armed_while_exit (fuel : nat) (s : State) :
  monitoring s = false -> System_Armed_while fuel s = Done tt s.
Proof.
  intros H. destruct fuel; cbn [System_Armed_while]; now rewrite H.
Qed.

Lemma System_Armed_while_quiet (fuel : nat) (dr1 dr2 : Z) (rest : list Z) (s : State) :
  monitoring s = true ->
  UART1_rx s = dr1 :: dr2 :: rest ->
  within_threshold (distance_of dr1 dr2) = false ->
  System_Armed_while (S fuel) s =
  System_Armed_while fuel
    (emits (poll_trace dr1 dr2 ++ [SysTick_Delay1ms 100]) (set_UART1_rx rest s)).
Proof.
  intros Hmon Hrx Hq. cbn [System_Armed_while]. rewrite Hmon.
  erewrite bind_Done by (eapply Get_Distance_runs; exact Hrx).
  rewrite Hq.
  erewrite bind_Done by reflexivity.
  erewrite bind_Done by (apply call_runs).
  now rewrite emits_emits.
Qed.

Lemma System_Armed_while_breach (fuel : nat) (dr1 dr2 : Z) (rest : list Z) (s : State) :
  monitoring s = true ->
  UART1_rx s = dr1 :: dr2 :: rest ->
  within_threshold (distance_of dr1 dr2) = true ->
  System_Armed_while (S fuel) s =
  Done tt (emits (poll_trace dr1 dr2 ++ alert_trace ++ [SysTick_Delay1ms 100])
                 (set_Security_c (mkStatics 0 0) (set_UART1_rx rest s))).
Proof.
  intros Hmon Hrx Hb. cbn [System_Armed_while]. rewrite Hmon.
  erewrite bind_Done by (eapply Get_Distance_runs; exact Hrx).
  rewrite Hb.
  erewrite bind_Done.
  2:{ erewrite bind_Done by reflexivity. apply Intruder_Alert_runs. }
  erewrite bind_Done by (apply call_runs).
  rewrite System_Armed_while_exit by reflexivity.
  f_equal. unfold after_alert, emits, set_Security_c, set_UART1_rx; cbn -[alert_trace].
  f_equal. rewrite <- !app_assoc. reflexivity.
Qed.

Lemma System_Armed_while_polls (answers : list (Z * Z)) :
  forall (fuel : nat) (dr1 dr2 : Z) (rest : list Z) (s : State),
    monitoring s = true ->
    Forall quiet answers ->
    within_threshold (distance_of dr1 dr2) = true ->
    UART1_rx s = wire answers ++ dr1 :: dr2 :: rest ->
    (List.length answers < fuel)%nat ->
    System_Armed_while fuel s =
    Done tt (emits (quiet_polls answers ++ poll_trace dr1 dr2 ++ alert_trace
                    ++ [SysTick_Delay1ms 100])
                   (set_Security_c (mkStatics 0 0) (set_UART1_rx rest s))).
Proof.
  induction answers as [|[a1 a2] answers IH]; intros fuel dr1 dr2 rest s Hmon Hq Hb Hrx Hfuel.
  - destruct fuel as [|fuel]; [cbn in Hfuel; lia|].
    cbn [wire app] in Hrx. cbn [quiet_polls app].
    now apply System_Armed_while_breach.
  - destruct fuel as [|fuel]; [cbn in Hfuel; lia|].
    cbn [wire app] in Hrx. inversion Hq as [|? ? Hq1 Hq2]; subst.
    rewrite (System_Armed_while_quiet fuel a1 a2 _ s Hmon Hrx Hq1).
    rewrite (IH fuel dr1 dr2 rest).
    + f_equal. unfold emits, set_Security_c, set_UART1_rx; cbn -[alert_trace].
      f_equal. rewrite <- !app_assoc. reflexivity.
    + exact Hmon.
    + exact Hq2.
    + exact Hb.
    + reflexivity.
    + cbn in Hfuel. lia.
Qed.

Lemma System_Armed_skips (fuel : nat) (s : State) :
  system_armed (Security_c s) = 0 ->
  System_Armed fuel s =
  Done tt (emits main_menu_trace
                 (set_Security_c (set_alert_active 0 (Security_c s)) s)).
Proof.
  intros H0. unfold System_Armed.
  erewrite bind_Done by reflexivity.
  erewrite bind_Done.
  2:{ apply System_Armed_while_exit. unfold monitoring. cbn. now rewrite H0. }
  erewrite bind_Done by reflexivity.
  cbn [Security_c set_Security_c set_alert_active system_armed]. rewrite H0.
  cbn. apply Display_Main_Menu_runs.
Qed.

(** ** Counting in traces *)

Lemma alert_invocations_app (a b : list Event) :
  alert_invocations (a ++ b) = (alert_invocations a + alert_invocations b)%nat.
Proof.
  unfold alert_invocations. now rewrite filter_app, length_app.
Qed.

Lemma sensor_polls_app (a b : list Event) :
  sensor_polls (a ++ b) = (sensor_polls a + sensor_polls b)%nat.
Proof.
  unfold sensor_polls. now rewrite filter_app, length_app.
Qed.

Lemma alert_invocations_alert_trace : alert_invocations alert_trace = 1%nat.
Proof. reflexivity. Qed.

Lemma sensor_polls_alert_trace : sensor_polls alert_trace = 0%nat.
Proof. reflexivity. Qed.

Lemma alert_invocations_quiet_polls (answers : list (Z * Z)) :
  alert_invocations (quiet_polls answers) = 0%nat.
Proof.
  induction answers as [|[a1 a2] answers IH]; [reflexivity|].
  cbn [quiet_polls]. now rewrite !alert_invocations_app, IH.
Qed.

Lemma sensor_polls_quiet_polls (answers : list (Z * Z)) :
  sensor_polls (quiet_polls answers) = List.length answers.
Proof.
  induction answers as [|[a1 a2] answers IH]; [reflexivity|].
  cbn [quiet_polls]. rewrite !sensor_polls_app, IH. reflexivity.
Qed.

(** ** The cases of the menu *)

Lemma case_SW2_already (fuel : nat) (s : State) :
  system_armed (main_c s) <> 0 ->
  case_SW2 fuel s =
  Done tt (emits (status_trace "Already Armed" ++ main_menu_trace) s).
Proof.
  intros Harmed. unfold case_SW2.
  erewrite bind_Done by reflexivity.
  apply Z.eqb_neq in Harmed. rewrite Harmed.
  erewrite bind_Done by (apply Display_Status_runs).
  rewrite Display_Main_Menu_runs. now rewrite emits_emits.
Qed.

(** Arming while the flag of Security.c is clear: [System_Armed] falls
    through its loop and the menu is drawn twice. *)
Lemma case_SW2_arms (fuel : nat) (s : State) :
  system_armed (main_c s) = 0 ->
  system_armed (Security_c s) = 0 ->
  case_SW2 fuel s =
  Done tt (emits (status_trace "System Armed" ++ main_menu_trace ++ main_menu_trace)
                 (set_Security_c (set_alert_active 0 (Security_c s))
                    (set_main_c (set_system_armed 1 (main_c s)) s))).
Proof.
  intros Hmain Hsec. unfold case_SW2.
  erewrite bind_Done by reflexivity.
  rewrite Hmain. cbn [Z.eqb].
  erewrite bind_Done.
  2:{ erewrite bind_Done by reflexivity.
      erewrite bind_Done by (apply Display_Status_runs).
      apply System_Armed_skips. exact Hsec. }
  rewrite Display_Main_Menu_runs.
  f_equal. unfold emits, set_Security_c, set_main_c; cbn.
  f_equal. rewrite <- !app_assoc. reflexivity.
Qed.

Lemma case_SW3_disarms (s : State) :
  system_armed (main_c s) <> 0 ->
  case_SW3 s =
  Done tt (emits (status_trace "System Disarmed" ++ main_menu_trace)
                 (set_main_c (set_system_armed 0 (main_c s)) s)).
Proof.
  intros Harmed. unfold case_SW3.
  erewrite bind_Done by reflexivity.
  apply Z.eqb_neq in Harmed. rewrite Harmed. cbn [negb].
  erewrite bind_Done.
  2:{ erewrite bind_Done by reflexivity. apply Display_Status_runs. }
  rewrite Display_Main_Menu_runs. now rewrite emits_emits.
Qed.

Lemma case_SW3_already (s : State) :
  system_armed (main_c s) = 0 ->
  case_SW3 s =
  Done tt (emits (status_trace "Already Disarmed" ++ main_menu_trace) s).
Proof.
  intros Hmain. unfold case_SW3.
  erewrite bind_Done by reflexivity.
  rewrite Hmain. cbn [Z.eqb negb].
  erewrite bind_Done by (apply Display_Status_runs).
  rewrite Display_Main_Menu_runs. now rewrite emits_emits.
Qed.

Lemma case_SW4_runs (s : State) :
  case_SW4 s =
  Done tt (emits (EduBase_LCD_Clear_Display :: main_menu_trace
                  ++ [SysTick_Delay1ms 20]) s).
Proof.
  unfold case_SW4.
  erewrite bind_Done by (apply call_runs).
  erewrite bind_Done by (apply Display_Main_Menu_runs).
  rewrite call_runs. now rewrite !emits_emits.
Qed.

Lemma Menu_Controller_same (fuel : nat) (b : Z) (s : State) :
  b = last_button_status s -> Menu_Controller fuel b s = Done tt s.
Proof.
  intros ->. unfold Menu_Controller.
  erewrite bind_Done by reflexivity. now rewrite Z.eqb_refl.
Qed.

Lemma Menu_Controller_edge (fuel : nat) (b : Z) (s : State) :
  b <> last_button_status s ->
  Menu_Controller fuel b s = dispatch fuel b (set_last_button_status b s).
Proof.
  intros Hne. unfold Menu_Controller.
  erewrite bind_Done by reflexivity.
  apply Z.eqb_neq in Hne. rewrite Hne. cbn [negb].
  erewrite bind_Done by reflexivity. reflexivity.
Qed.

(** ** Reachable states *)

Lemma main_prologue_runs (rx : list Z) :
  main_prologue (reset rx) = Done tt (booted rx).
Proof.
  unfold main_prologue.
  do 7 (erewrite bind_Done by (apply call_runs)).
  erewrite bind_Done by (apply Display_Main_Menu_runs).
  rewrite call_runs. now rewrite !emits_emits.
Qed.

Lemma Reachable_booted (rx : list Z) : Reachable (booted rx).
Proof.
  apply (Reachable_boot rx). apply main_prologue_runs.
Qed.

Lemma quiescent_emits (es : list Event) (s : State) :
  sensor_polls es = 0%nat -> quiescent s -> quiescent (emits es s).
Proof.
  intros Hes (Hsec & Halert & Hpolls). unfold quiescent.
  cbn [emits Security_c main_c trace].
  rewrite sensor_polls_app, Hes, Hpolls. repeat split; assumption.
Qed.

Lemma alerts_emits (n : nat) (es : list Event) (s : State) :
  alert_invocations es = n ->
  alert_invocations (trace (emits es s)) = (alert_invocations (trace s) + n)%nat.
Proof.
  intros <-. cbn [emits trace]. apply alert_invocations_app.
Qed.

Lemma dispatch_quiescent (fuel : nat) (b : Z) (s : State) :
  quiescent s ->
  exists s', dispatch fuel b s = Done tt s' /\ quiescent s' /\
             UART1_rx s' = UART1_rx s /\
             last_button_status s' = last_button_status s /\
             alert_invocations (trace s') =
               (alert_invocations (trace s) + alerts_of b)%nat.
Proof.
  intros Hq. pose proof Hq as (Hsec & Halert & Hpolls).
  assert (Hsec0 : system_armed (Security_c s) = 0) by now rewrite Hsec.
  unfold dispatch, alerts_of.
  destruct (Z.eqb_spec b 0x08) as [->|_].
  { destruct (Z.eq_dec (system_armed (main_c s)) 0) as [H0|H1].
    - rewrite (case_SW2_arms fuel s H0 Hsec0). eexists; split; [reflexivity|].
      split; [|split; [reflexivity|split; [reflexivity|erewrite alerts_emits by reflexivity; reflexivity]]].
      apply quiescent_emits; [reflexivity|].
      repeat split; cbn; try assumption. now rewrite Hsec.
    - rewrite (case_SW2_already fuel s H1). eexists; split; [reflexivity|].
      split; [|split; [reflexivity|split; [reflexivity|erewrite alerts_emits by reflexivity; reflexivity]]].
      now apply quiescent_emits. }
  destruct (Z.eqb_spec b 0x04) as [->|_].
  { destruct (Z.eq_dec (system_armed (main_c s)) 0) as [H0|H1].
    - rewrite (case_SW3_already s H0). eexists; split; [reflexivity|].
      split; [|split; [reflexivity|split; [reflexivity|erewrite alerts_emits by reflexivity; reflexivity]]].
      now apply quiescent_emits.
    - rewrite (case_SW3_disarms s H1). eexists; split; [reflexivity|].
      split; [|split; [reflexivity|split; [reflexivity|erewrite alerts_emits by reflexivity; reflexivity]]].
      apply quiescent_emits; [reflexivity|].
      repeat split; cbn; assumption. }
  destruct (Z.eqb_spec b 0x01) as [->|_].
  { unfold case_SW5. rewrite Intruder_Alert_runs. eexists; split; [reflexivity|].
    unfold after_alert.
    split; [|split; [reflexivity|split; [reflexivity|erewrite alerts_emits by reflexivity; reflexivity]]].
    apply quiescent_emits; [reflexivity|].
    repeat split; cbn; assumption. }
  destruct (Z.eqb_spec b 0x02) as [->|_].
  { rewrite case_SW4_runs. eexists; split; [reflexivity|].
    split; [|split; [reflexivity|split; [reflexivity|erewrite alerts_emits by reflexivity; reflexivity]]].
    now apply quiescent_emits. }
  exists s. repeat split; try assumption. now rewrite Nat.add_0_r.
Qed.

Lemma Menu_Controller_quiescent (fuel : nat) (b : Z) (s : State) :
  quiescent s ->
  exists s', Menu_Controller fuel b s = Done tt s' /\ quiescent s' /\
             UART1_rx s' = UART1_rx s /\ last_button_status s' = b /\
             alert_invocations (trace s') =
               (alert_invocations (trace s)
                + if (b =? last_button_status s)%Z then 0 else alerts_of b)%nat.
Proof.
  intros Hq. destruct (Z.eqb_spec b (last_button_status s)) as [Heq|Hne].
  - exists s. rewrite Menu_Controller_same by exact Heq.
    repeat split; try apply Hq; [now symmetry|now rewrite Nat.add_0_r].
  - rewrite Menu_Controller_edge by exact Hne.
    destruct (dispatch_quiescent fuel b (set_last_button_status b s))
      as (s' & Hrun & Hq' & Hrx & Hlast & Hal).
    { exact Hq. }
    exists s'. repeat split; try assumption; apply Hq'.
Qed.

Lemma main_iteration_quiescent (fuel : nat) (sample : Z) (s : State) :
  quiescent s ->
  exists s', main_iteration fuel sample s = Done tt s' /\ quiescent s' /\
             UART1_rx s' = UART1_rx s /\
             last_button_status s' = cast_uint8 sample /\
             alert_invocations (trace s') =
               (alert_invocations (trace s)
                + if (cast_uint8 sample =? last_button_status s)%Z
                  then 0 else alerts_of (cast_uint8 sample))%nat.
Proof.
  intros Hq. unfold main_iteration.
  destruct (Menu_Controller_quiescent fuel (cast_uint8 sample) s Hq)
    as (s1 & Hrun & Hq1 & Hrx & Hlast & Hal).
  erewrite bind_Done by exact Hrun. rewrite call_runs.
  eexists; split; [reflexivity|]. split; [|split; [|split]].
  - now apply quiescent_emits.
  - exact Hrx.
  - exact Hlast.
  - rewrite (alerts_emits 0) by reflexivity. rewrite Nat.add_0_r. exact Hal.
Qed.

Lemma main_while_quiescent (fuel : nat) (samples : list Z) :
  forall s : State,
    quiescent s ->
    exists s', main_while fuel samples s = Done tt s' /\ quiescent s' /\
               UART1_rx s' = UART1_rx s /\
               alert_invocations (trace s') =
                 (alert_invocations (trace s)
                  + trigger_edges (last_button_status s) samples)%nat.
Proof.
  induction samples as [|sample samples IH]; intros s Hq.
  - exists s. cbn. repeat split; try apply Hq. now rewrite Nat.add_0_r.
  - destruct (main_iteration_quiescent fuel sample s Hq)
      as (s1 & Hrun & Hq1 & Hrx1 & Hlast1 & Hal1).
    destruct (IH s1 Hq1) as (s2 & Hrun2 & Hq2 & Hrx2 & Hal2).
    exists s2. cbn [main_while trigger_edges].
    erewrite bind_Done by exact Hrun.
    split; [exact Hrun2|]. split; [exact Hq2|]. split; [congruence|].
    rewrite Hal2, Hal1, Hlast1. lia.
Qed.

Lemma Reachable_quiescent (s : State) : Reachable s -> quiescent s.
Proof.
  induction 1 as [rx s Hboot | fuel sample s s' _ IH Hturn].
  - rewrite main_prologue_runs in Hboot. injection Hboot as <-.
    repeat split; reflexivity.
  - destruct (main_iteration_quiescent fuel sample s IH) as (s1 & Hrun & Hq1 & _).
    rewrite Hrun in Hturn. injection Hturn as <-. exact Hq1.
Qed.

(** ** What no routine but the menu writes: the stored button mask *)

Lemma keeps_last_ret {A : Type} (a : A) : keeps_last (ret a).
Proof. intros s a' s' H. injection H as _ <-. reflexivity. Qed.

Lemma keeps_last_bind {A B : Type} (c : M A) (k : A -> M B) :
  keeps_last c -> (forall a, keeps_last (k a)) -> keeps_last (bind c k).
Proof.
  intros Hc Hk s b s' H. unfold bind in H.
  destruct (c s) as [a s1| |] eqn:E; try discriminate.
  rewrite (Hk a s1 b s' H). exact (Hc s a s1 E).
Qed.

Lemma keeps_last_call (e : Event) : keeps_last (call e).
Proof. intros s a s' H. injection H as _ <-. reflexivity. Qed.

Lemma keeps_last_gets {A : Type} (f : State -> A) : keeps_last (gets f).
Proof. intros s a s' H. injection H as _ <-. reflexivity. Qed.

Lemma keeps_last_modify (f : State -> State) :
  (forall s, last_button_status (f s) = last_button_status s) ->
  keeps_last (modify f).
Proof. intros Hf s a s' H. injection H as _ <-. apply Hf. Qed.

Lemma keeps_last_runs {A : Type} (c : M A) (f : State -> State) (a : A) :
  (forall s, c s = Done a (f s)) ->
  (forall s, last_button_status (f s) = last_button_status s) ->
  keeps_last c.
Proof.
  intros Hc Hf s a' s' H. rewrite Hc in H. injection H as _ <-. apply Hf.
Qed.

Lemma keeps_last_Display_Main_Menu : keeps_last Display_Main_Menu.
Proof.
  apply (keeps_last_runs _ (emits main_menu_trace) tt);
    [apply Display_Main_Menu_runs|reflexivity].
Qed.

Lemma keeps_last_Display_Status (message : string) :
  keeps_last (Display_Status message).
Proof.
  apply (keeps_last_runs _ (emits (status_trace message)) tt);
    [apply Display_Status_runs|reflexivity].
Qed.

Lemma keeps_last_Intruder_Alert : keeps_last Intruder_Alert.
Proof.
  apply (keeps_last_runs _ after_alert tt);
    [apply Intruder_Alert_runs|reflexivity].
Qed.

Lemma keeps_last_UART1_Input_Character : keeps_last UART1_Input_Character.
Proof.
  intros s a s' H. unfold UART1_Input_Character in H.
  destruct (UART1_rx s) as [|dr rest]; [discriminate|].
  injection H as _ <-. reflexivity.
Qed.

Lemma keeps_last_Get_Distance : keeps_last Get_Distance.
Proof.
  unfold Get_Distance, UART1_Output_Character.
  apply keeps_last_bind; [apply keeps_last_call|intros _].
  apply keeps_last_bind; [apply keeps_last_UART1_Input_Character|intros c1].
  apply keeps_last_bind; [apply keeps_last_UART1_Input_Character|intros c2].
  apply keeps_last_ret.
Qed.

Lemma keeps_last_System_Armed_while (fuel : nat) :
  keeps_last (System_Armed_while fuel).
Proof.
  induction fuel as [|fuel IH]; intros s a s' H; cbn [System_Armed_while] in H;
    destruct (monitoring s); try discriminate;
    try (injection H as _ <-; reflexivity).
  revert s a s' H.
  apply keeps_last_bind; [apply keeps_last_Get_Distance|intros d].
  apply keeps_last_bind.
  - destruct (within_threshold d); [|apply keeps_last_ret].
    apply keeps_last_bind; [now apply keeps_last_modify|intros _].
    apply keeps_last_Intruder_Alert.
  - intros _. apply keeps_last_bind; [apply keeps_last_call|intros _]. exact IH.
Qed.

Lemma keeps_last_System_Armed (fuel : nat) : keeps_last (System_Armed fuel).
Proof.
  unfold System_Armed.
  apply keeps_last_bind; [now apply keeps_last_modify|intros _].
  apply keeps_last_bind; [apply keeps_last_System_Armed_while|intros _].
  apply keeps_last_bind; [apply keeps_last_gets|intros armed].
  destruct (armed =? 0); [apply keeps_last_Display_Main_Menu|apply keeps_last_ret].
Qed.

Lemma keeps_last_dispatch (fuel : nat) (b : Z) : keeps_last (dispatch fuel b).
Proof.
  unfold dispatch.
  destruct (b =? 0x08).
  { unfold case_SW2.
    apply keeps_last_bind; [apply keeps_last_gets|intros armed].
    apply keeps_last_bind; [|intros _; apply keeps_last_Display_Main_Menu].
    destruct (armed =? 0); [|apply keeps_last_Display_Status].
    apply keeps_last_bind; [now apply keeps_last_modify|intros _].
    apply keeps_last_bind; [apply keeps_last_Display_Status|intros _].
    apply keeps_last_System_Armed. }
  destruct (b =? 0x04).
  { unfold case_SW3.
    apply keeps_last_bind; [apply keeps_last_gets|intros armed].
    apply keeps_last_bind; [|intros _; apply keeps_last_Display_Main_Menu].
    destruct (negb (armed =? 0)); [|apply keeps_last_Display_Status].
    apply keeps_last_bind; [now apply keeps_last_modify|intros _].
    apply keeps_last_Display_Status. }
  destruct (b =? 0x01); [apply keeps_last_Intruder_Alert|].
  destruct (b =? 0x02); [|apply keeps_last_ret].
  unfold case_SW4.
  apply keeps_last_bind; [apply keeps_last_call|intros _].
  apply keeps_last_bind; [apply keeps_last_Display_Main_Menu|intros _].
  apply keeps_last_call.
Qed.

Lemma Menu_Controller_stores_mask (fuel : nat) (b : Z) (s s' : State) :
  Menu_Controller fuel b s = Done tt s' -> last_button_status s' = b.
Proof.
  intros H. destruct (Z.eq_dec b (last_button_status s)) as [Heq|Hne].
  - rewrite Menu_Controller_same in H by exact Heq. injection H as <-. now symmetry.
  - rewrite Menu_Controller_edge in H by exact Hne.
    now rewrite (keeps_last_dispatch fuel b _ tt s' H).
Qed.

Lemma main_while_held (fuel : nat) (sample : Z) (n : nat) :
  forall s : State,
    last_button_status s = cast_uint8 sample ->
    main_while fuel (repeat sample n) s = Done tt (idle_turns n s).
Proof.
  induction n as [|n IH]; intros s Hlast; cbn [repeat main_while].
  - unfold idle_turns. cbn [times]. now rewrite emits_nil.
  - unfold main_iteration.
    erewrite bind_Done.
    2:{ erewrite bind_Done by (apply Menu_Controller_same; now symmetry).
        apply call_runs. }
    rewrite IH by exact Hlast.
    unfold idle_turns. cbn [times]. now rewrite emits_emits.
Qed.

(** ** Commands other than arm never reach the sensor *)

Lemma polls_emits (es : list Event) (s : State) :
  sensor_polls es = 0%nat ->
  sensor_polls (trace (emits es s)) = sensor_polls (trace s).
Proof.
  intros H. cbn [emits trace]. rewrite sensor_polls_app, H. apply Nat.add_0_r.
Qed.

Lemma Menu_Controller_no_arm (fuel : nat) (b : Z) (s : State) :
  b <> 0x08 ->
  exists s', Menu_Controller fuel b s = Done tt s' /\
             sensor_polls (trace s') = sensor_polls (trace s) /\
             UART1_rx s' = UART1_rx s.
Proof.
  intros Hb. destruct (Z.eq_dec b (last_button_status s)) as [Heq|Hne].
  { exists s. rewrite Menu_Controller_same by exact Heq. now repeat split. }
  rewrite Menu_Controller_edge by exact Hne. unfold dispatch.
  apply Z.eqb_neq in Hb. rewrite Hb.
  destruct (b =? 0x04).
  { destruct (Z.eq_dec (system_armed (main_c (set_last_button_status b s))) 0)
      as [H0|H1].
    - rewrite (case_SW3_already _ H0). eexists; split; [reflexivity|].
      split; [unfold after_alert; rewrite polls_emits by reflexivity; reflexivity|reflexivity].
    - rewrite (case_SW3_disarms _ H1). eexists; split; [reflexivity|].
      split; [unfold after_alert; rewrite polls_emits by reflexivity; reflexivity|reflexivity]. }
  destruct (b =? 0x01).
  { unfold case_SW5. rewrite Intruder_Alert_runs. eexists; split; [reflexivity|].
    split; [unfold after_alert; rewrite polls_emits by reflexivity; reflexivity|reflexivity]. }
  destruct (b =? 0x02).
  { rewrite case_SW4_runs. eexists; split; [reflexivity|].
    split; [unfold after_alert; rewrite polls_emits by reflexivity; reflexivity|reflexivity]. }
  eexists; split; [reflexivity|]. now split.
Qed.

Lemma main_while_no_arm (fuel : nat) (samples : list Z) :
  forall s : State,
    Forall not_arm samples ->
    exists s', main_while fuel samples s = Done tt s' /\
               sensor_polls (trace s') = sensor_polls (trace s) /\
               UART1_rx s' = UART1_rx s.
Proof.
  induction samples as [|sample samples IH]; intros s Hall.
  - exists s. now repeat split.
  - inversion Hall as [|? ? Hhead Htail]; subst.
    destruct (Menu_Controller_no_arm fuel (cast_uint8 sample) s Hhead)
      as (s1 & Hrun1 & Hp1 & Hrx1).
    destruct (IH (emits [SysTick_Delay1ms 10] s1) Htail) as (s2 & Hrun2 & Hp2 & Hrx2).
    exists s2. cbn [main_while]. unfold main_iteration.
    erewrite bind_Done.
    2:{ erewrite bind_Done by exact Hrun1. apply call_runs. }
    split; [exact Hrun2|]. split.
    + rewrite Hp2, polls_emits by reflexivity. exact Hp1.
    + rewrite Hrx2. exact Hrx1.
Qed.

Lemma main_runs (fuel : nat) (samples : list Z) (rx : list Z) :
  exists s', main fuel samples (reset rx) = Done tt s' /\ quiescent s' /\
             UART1_rx s' = rx /\
             alert_invocations (trace s') = trigger_edges 0 samples.
Proof.
  unfold main. erewrite bind_Done by (apply main_prologue_runs).
  destruct (main_while_quiescent fuel samples (booted rx))
    as (s' & Hrun & Hq & Hrx & Hal).
  { apply Reachable_quiescent, Reachable_booted. }
  exists s'. repeat split; try apply Hq; assumption.
Qed.

(** The alert sequence writes the statics of Security.c only: started by the
    trigger mask after an arm command, it leaves the armed flag of main.c
    up. *)
Example trigger_after_arm :
  exists s',
    main 0 [0x08; 0x01] (reset []) = Done tt s' /\
    system_armed (main_c s') = 1 /\ system_armed (Security_c s') = 0 /\
    alert_invocations (trace s') = 1%nat.
Proof.
  eexists. split; [vm_compute; reflexivity|].
  split; [reflexivity|]. split; [reflexivity|]. vm_compute. reflexivity.
Qed.

(** ** Further facts about the sensor link and the monitoring loop *)

Lemma land_0xFF_mod (z : Z) : Z.land z 0xFF = z mod 256.
Proof.
  change 0xFF with (Z.ones 8). now rewrite Z.land_ones by lia.
Qed.

Lemma Get_Distance_Done_inv (s s' : State) (d : Z) :
  Get_Distance s = Done d s' ->
  exists dr1 dr2, UART1_rx s = dr1 :: dr2 :: UART1_rx s' /\ d = distance_of dr1 dr2.
Proof.
  intros H. destruct (UART1_rx s) as [|dr1 [|dr2 rest]] eqn:Hrx.
  - destruct (Get_Distance_starved s) as (s1 & H1); [rewrite Hrx; cbn; lia|].
    rewrite H1 in H. discriminate.
  - destruct (Get_Distance_starved s) as (s1 & H1); [rewrite Hrx; cbn; lia|].
    rewrite H1 in H. discriminate.
  - rewrite (Get_Distance_runs dr1 dr2 rest s Hrx) in H.
    injection H as <- <-. exists dr1, dr2. split; reflexivity.
Qed.

Lemma System_Armed_while_Done_inv (fuel : nat) :
  forall s s' : State,
    monitoring s = true ->
    System_Armed_while fuel s = Done tt s' ->
    exists (answers : list (Z * Z)) (dr1 dr2 : Z),
      Forall quiet answers /\
      within_threshold (distance_of dr1 dr2) = true /\
      UART1_rx s = wire answers ++ dr1 :: dr2 :: UART1_rx s' /\
      s' = emits (quiet_polls answers ++ poll_trace dr1 dr2 ++ alert_trace
                  ++ [SysTick_Delay1ms 100])
                 (set_Security_c (mkStatics 0 0) (set_UART1_rx (UART1_rx s') s)).
Proof.
  induction fuel as [|fuel IH]; intros s s' Hmon Hrun.
  - cbn [System_Armed_while] in Hrun. rewrite Hmon in Hrun. discriminate.
  - destruct (UART1_rx s) as [|dr1 [|dr2 rest]] eqn:Hrx.
    1,2: cbn [System_Armed_while] in Hrun; rewrite Hmon in Hrun;
      destruct (Get_Distance_starved s) as (s1 & H1); [rewrite Hrx; cbn; lia|];
      unfold bind at 1 in Hrun; rewrite H1 in Hrun; discriminate.
    destruct (within_threshold (distance_of dr1 dr2)) eqn:Hth.
    + rewrite (System_Armed_while_breach fuel dr1 dr2 rest s Hmon Hrx Hth) in Hrun.
      injection Hrun as <-. exists [], dr1, dr2.
      split; [constructor|]. split; [exact Hth|]. split; [reflexivity|].
      reflexivity.
    + rewrite (System_Armed_while_quiet fuel dr1 dr2 rest s Hmon Hrx Hth) in Hrun.
      apply IH in Hrun; [|exact Hmon].
      destruct Hrun as (answers & d1 & d2 & Hq & Hb & Hwire & Hs').
      exists ((dr1, dr2) :: answers), d1, d2.
      split; [constructor; [exact Hth|exact Hq]|]. split; [exact Hb|].
      cbn [emits set_UART1_rx UART1_rx] in Hwire. split.
      * cbn [wire app]. now rewrite Hwire.
      * rewrite Hs' at 1.
        unfold emits, set_Security_c, set_UART1_rx; cbn -[alert_trace].
        f_equal. rewrite <- !app_assoc. reflexivity.
Qed.

Lemma System_Armed_while_starved (answers : list (Z * Z)) :
  forall (fuel : nat) (tail : list Z) (s : State),
    monitoring s = true ->
    Forall quiet answers ->
    UART1_rx s = wire answers ++ tail ->
    (List.length tail < 2)%nat ->
    (List.length answers < fuel)%nat ->
    exists s',
      System_Armed_while fuel s = Blocked s' /\
      Security_c s' = Security_c s /\
      exists waiting,
        trace s' = trace s ++ quiet_polls answers
                   ++ UART1_DR_write 0x55 :: waiting /\
        sensor_polls waiting = 0%nat /\ alert_invocations waiting = 0%nat.
Proof.
  induction answers as [|[a1 a2] answers IH]; intros fuel tail s Hmon Hq Hrx Htail Hfuel.
  - destruct fuel as [|fuel]; [cbn in Hfuel; lia|].
    cbn [wire app] in Hrx. cbn [System_Armed_while]. rewrite Hmon.
    unfold bind at 1. unfold Get_Distance, UART1_Output_Character.
    erewrite bind_Done by (apply call_runs).
    unfold bind, UART1_Input_Character. cbn [UART1_rx emits]. rewrite Hrx.
    destruct tail as [|x [|y tail]]; cbn [UART1_rx emits set_UART1_rx].
    + eexists. split; [reflexivity|]. split; [reflexivity|].
      exists []. cbn. now repeat split.
    + eexists. split; [reflexivity|]. split; [reflexivity|].
      exists [UART1_DR_read (Z.land x 0xFF)]. cbn.
      rewrite <- app_assoc. now repeat split.
    + cbn in Htail. lia.
  - destruct fuel as [|fuel]; [cbn in Hfuel; lia|].
    cbn [wire app] in Hrx. inversion Hq as [|? ? Hq1 Hq2]; subst.
    rewrite (System_Armed_while_quiet fuel a1 a2 _ s Hmon Hrx Hq1).
    destruct (IH fuel tail
                (emits (poll_trace a1 a2 ++ [SysTick_Delay1ms 100])
                       (set_UART1_rx (wire answers ++ tail) s)))
      as (s' & Hrun & Hsec & waiting & Htr & Hw1 & Hw2).
    + exact Hmon.
    + exact Hq2.
    + reflexivity.
    + exact Htail.
    + cbn in Hfuel. lia.
    + exists s'. split; [exact Hrun|]. split; [exact Hsec|].
      exists waiting. split; [|split; assumption].
      rewrite Htr. cbn [emits trace set_UART1_rx quiet_polls].
      rewrite <- !app_assoc. reflexivity.
Qed.

(** ** What one turn of the main loop adds to the trace *)

Lemma dispatch_turn (fuel : nat) (b : Z) (s : State) :
  quiescent s ->
  exists (s' : State) (added : list Event),
    dispatch fuel b s = Done tt s' /\
    trace s' = trace s ++ added /\
    In (added ++ [SysTick_Delay1ms 10]) turn_traces /\
    system_armed (main_c s') =
      (if b =? 0x08 then (if system_armed (main_c s) =? 0 then 1
                          else system_armed (main_c s))
       else if b =? 0x04 then 0
       else system_armed (main_c s)).
Proof.
  intros Hq. pose proof Hq as (Hsec & _ & _).
  assert (Hsec0 : system_armed (Security_c s) = 0) by now rewrite Hsec.
  unfold dispatch.
  destruct (Z.eqb_spec b 0x08) as [->|_].
  { destruct (Z.eqb_spec (system_armed (main_c s)) 0) as [H0|H1].
    - rewrite (case_SW2_arms fuel s H0 Hsec0). eexists; eexists.
      split; [reflexivity|]. split; [reflexivity|].
      split; [right; left; reflexivity|reflexivity].
    - rewrite (case_SW2_already fuel s H1). eexists; eexists.
      split; [reflexivity|]. split; [reflexivity|].
      split; [do 2 right; left; reflexivity|reflexivity]. }
  destruct (Z.eqb_spec b 0x04) as [->|_].
  { destruct (Z.eq_dec (system_armed (main_c s)) 0) as [H0|H1].
    - rewrite (case_SW3_already s H0). eexists; eexists.
      split; [reflexivity|]. split; [reflexivity|].
      split; [do 4 right; left; reflexivity|exact H0].
    - rewrite (case_SW3_disarms s H1). eexists; eexists.
      split; [reflexivity|]. split; [reflexivity|].
      split; [do 3 right; left; reflexivity|reflexivity]. }
  destruct (Z.eqb_spec b 0x01) as [->|_].
  { unfold case_SW5. rewrite Intruder_Alert_runs. eexists; eexists.
    split; [reflexivity|]. split; [reflexivity|].
    split; [do 5 right; left; reflexivity|reflexivity]. }
  destruct (Z.eqb_spec b 0x02) as [->|_].
  { rewrite case_SW4_runs. eexists; eexists.
    split; [reflexivity|]. split; [reflexivity|].
    split; [do 6 right; left; reflexivity|reflexivity]. }
  exists s, []. split; [reflexivity|]. split; [now rewrite app_nil_r|].
  split; [left; reflexivity|reflexivity].
Qed.

Lemma main_iteration_turn (fuel : nat) (sample : Z) (s : State) :
  quiescent s ->
  exists (s' : State) (added : list Event),
    main_iteration fuel sample s = Done tt s' /\
    trace s' = trace s ++ added /\
    In added turn_traces /\
    (cast_uint8 sample = last_button_status s -> added = [SysTick_Delay1ms 10]) /\
    (system_armed (main_c s'), last_button_status s')
    = menu_step (system_armed (main_c s), last_button_status s) sample.
Proof.
  intros Hq. unfold main_iteration, menu_step.
  destruct (Z.eqb_spec (cast_uint8 sample) (last_button_status s)) as [Heq|Hne].
  - erewrite bind_Done by (apply Menu_Controller_same; exact Heq).
    rewrite call_runs. eexists; eexists. split; [reflexivity|].
    split; [reflexivity|]. split; [left; reflexivity|]. split; reflexivity.
  - destruct (dispatch_turn fuel (cast_uint8 sample)
                (set_last_button_status (cast_uint8 sample) s) Hq)
      as (s1 & added & Hrun & Htr & Hin & Hflag).
    erewrite bind_Done by (rewrite Menu_Controller_edge by exact Hne; exact Hrun).
    rewrite call_runs.
    exists (emits [SysTick_Delay1ms 10] s1), (added ++ [SysTick_Delay1ms 10]).
    split; [reflexivity|]. split.
    { cbn [emits trace]. rewrite Htr. cbn [set_last_button_status trace].
      now rewrite app_assoc. }
    split; [exact Hin|]. split; [intros Heq; contradiction|].
    cbn [emits main_c last_button_status].
    rewrite (keeps_last_dispatch fuel _ _ tt s1 Hrun).
    cbn [set_last_button_status main_c last_button_status] in Hflag |- *.
    rewrite Hflag.
    destruct (cast_uint8 sample =? 8); [reflexivity|].
    destruct (cast_uint8 sample =? 4); reflexivity.
Qed.

Lemma main_while_menu_flag (fuel : nat) (samples : list Z) :
  forall s : State,
    quiescent s ->
    exists s', main_while fuel samples s = Done tt s' /\
               (system_armed (main_c s'), last_button_status s')
               = fold_left menu_step samples
                   (system_armed (main_c s), last_button_status s).
Proof.
  induction samples as [|sample samples IH]; intros s Hq.
  - exists s. split; reflexivity.
  - destruct (main_iteration_quiescent fuel sample s Hq) as (s1 & Hrun1 & Hq1 & _).
    destruct (main_iteration_turn fuel sample s Hq)
      as (s1' & added & Hrun1' & _ & _ & _ & Hstep).
    rewrite Hrun1 in Hrun1'. injection Hrun1' as <-.
    destruct (IH s1 Hq1) as (s2 & Hrun2 & Hfold).
    exists s2. cbn [main_while fold_left].
    erewrite bind_Done by exact Hrun1.
    split; [exact Hrun2|]. now rewrite Hfold, Hstep.
Qed.

Lemma delay_ms_turn_traces :
  Forall (fun added => 10 <= delay_ms added <= 8010) turn_traces.
Proof.
  repeat constructor; vm_compute; discriminate.
Qed.

Lemma last_leds_app (a b : list Event) :
  last_leds (a ++ b) =
  match last_leds b with Some p => Some p | None => last_leds a end.
Proof.
  induction a as [|e a IH]; cbn [app last_leds].
  - now destruct (last_leds b).
  - rewrite IH. destruct (last_leds b); [reflexivity|].
    reflexivity.
Qed.

Lemma last_leds_turn_traces :
  Forall (fun added => last_leds added = None \/
                       last_leds added = Some EDUBASE_LED_ALL_OFF) turn_traces.
Proof.
  unfold turn_traces.
  repeat (apply Forall_cons; [vm_compute; auto|]). apply Forall_nil.
Qed.

Lemma lcd_calls_turn_traces :
  Forall (fun added => lcd_calls added = [] \/
                       exists before, lcd_calls added = before ++ main_menu_trace)
         turn_traces.
Proof.
  unfold turn_traces. repeat apply Forall_cons; [..|apply Forall_nil].
  - left. reflexivity.
  - right. exists (lcd_calls (status_trace "System Armed" ++ main_menu_trace)).
    reflexivity.
  - right. exists (lcd_calls (status_trace "Already Armed")). reflexivity.
  - right. exists (lcd_calls (status_trace "System Disarmed")). reflexivity.
  - right. exists (lcd_calls (status_trace "Already Disarmed")). reflexivity.
  - right. exists (lcd_calls alert_banner). reflexivity.
  - right. exists [EduBase_LCD_Clear_Display]. reflexivity.
Qed.

(** ** Bits of the registers after [UART1_Init] *)

Lemma cast_uint32_bit (z n : Z) :
  0 <= n ->
  Z.testbit (cast_uint32 z) n = (n <? 32) && Z.testbit z n.
Proof.
  intros Hn. unfold cast_uint32. change 4294967296 with (2 ^ 32).
  destruct (Z.ltb_spec n 32).
  - now rewrite Z.mod_pow2_bits_low by lia.
  - now rewrite Z.mod_pow2_bits_high by lia.
Qed.

Lemma or_assign_bit (reg mask n : Z) :
  0 <= n ->
  Z.testbit (UART1_c.or_assign reg mask) n
  = (n <? 32) && (Z.testbit reg n || Z.testbit mask n).
Proof.
  intros Hn. unfold UART1_c.or_assign.
  now rewrite cast_uint32_bit, Z.lor_spec by lia.
Qed.

Lemma and_not_assign_bit (reg mask n : Z) :
  0 <= n ->
  Z.testbit (UART1_c.and_not_assign reg mask) n
  = (n <? 32) && (Z.testbit reg n && negb (Z.testbit mask n)).
Proof.
  intros Hn. unfold UART1_c.and_not_assign.
  rewrite cast_uint32_bit, Z.land_spec, cast_uint32_bit, Z.lnot_spec by lia.
  destruct (n <? 32), (Z.testbit reg n), (Z.testbit mask n); reflexivity.
Qed.

Lemma in_range_bit (z n : Z) :
  0 <= z < 4294967296 -> 32 <= n -> Z.testbit z n = false.
Proof.
  intros Hz Hn.
  rewrite <- (Z.mod_small z (2 ^ 32)) by (change (2 ^ 32) with 4294967296; lia).
  apply Z.mod_pow2_bits_high. lia.
Qed.

Lemma below_32 (n : Z) :
  0 <= n < 32 -> In n (map Z.of_nat (seq 0 32)).
Proof.
  intros Hn. rewrite <- (Z2Nat.id n) by lia.
  apply in_map, in_seq. lia.
Qed.

(** Case analysis over the 32 bit positions of a register, the bit [b] of the
    old value being arbitrary: the bits of the constants are computed. *)
Ltac each_bit n Hn b :=
  let H := fresh "Hcase" in
  pose proof (below_32 n Hn) as H; cbn in H;
  repeat (destruct H as [<-|H]; [cbn; destruct b; reflexivity|]);
  contradiction.

Lemma UART1_Init_RCGCUART_bit (r : UART1_c.registers) (n : Z) :
  0 <= n ->
  Z.testbit (UART1_c.SYSCTL_RCGCUART (UART1_c.UART1_Init r)) n
  = (n <? 32) && (Z.testbit (UART1_c.SYSCTL_RCGCUART r) n || Z.testbit 0x02 n).
Proof. intros Hn. cbn. now rewrite or_assign_bit. Qed.

Lemma UART1_Init_RCGCGPIO_bit (r : UART1_c.registers) (n : Z) :
  0 <= n ->
  Z.testbit (UART1_c.SYSCTL_RCGCGPIO (UART1_c.UART1_Init r)) n
  = (n <? 32) && (Z.testbit (UART1_c.SYSCTL_RCGCGPIO r) n || Z.testbit 0x04 n).
Proof. intros Hn. cbn. now rewrite or_assign_bit. Qed.

Lemma UART1_Init_CTL_bit (r : UART1_c.registers) (n : Z) :
  0 <= n ->
  Z.testbit (UART1_c.UART1_CTL (UART1_c.UART1_Init r)) n
  = (n <? 32) && (Z.testbit (UART1_c.UART1_CTL r) n || Z.testbit 0x01 n).
Proof.
  intros Hn. cbn. rewrite or_assign_bit, and_not_assign_bit by lia.
  destruct (n <? 32), (Z.testbit (UART1_c.UART1_CTL r) n), (Z.testbit 1 n);
    reflexivity.
Qed.

Lemma UART1_Init_LCRH_bit (r : UART1_c.registers) (n : Z) :
  0 <= n ->
  Z.testbit (UART1_c.UART1_LCRH (UART1_c.UART1_Init r)) n
  = (n <? 32)
    && (Z.testbit (UART1_c.UART1_LCRH r) n || Z.testbit 0x60 n || Z.testbit 0x10 n)
    && negb (Z.testbit 0x08 n) && negb (Z.testbit 0x02 n).
Proof.
  intros Hn. cbn. rewrite !and_not_assign_bit, !or_assign_bit by lia.
  destruct (n <? 32), (Z.testbit (UART1_c.UART1_LCRH r) n), (Z.testbit 96 n),
    (Z.testbit 16 n), (Z.testbit 8 n), (Z.testbit 2 n); reflexivity.
Qed.

Lemma UART1_Init_AFSEL_bit (r : UART1_c.registers) (n : Z) :
  0 <= n ->
  Z.testbit (UART1_c.GPIOC_AFSEL (UART1_c.UART1_Init r)) n
  = (n <? 32) && (Z.testbit (UART1_c.GPIOC_AFSEL r) n || Z.testbit 0xA0 n).
Proof. intros Hn. cbn. now rewrite or_assign_bit. Qed.

Lemma UART1_Init_DEN_bit (r : UART1_c.registers) (n : Z) :
  0 <= n ->
  Z.testbit (UART1_c.GPIOC_DEN (UART1_c.UART1_Init r)) n
  = (n <? 32) && (Z.testbit (UART1_c.GPIOC_DEN r) n || Z.testbit 0xA0 n).
Proof. intros Hn. cbn. now rewrite or_assign_bit. Qed.

Lemma UART1_Init_PCTL_bit (r : UART1_c.registers) (n : Z) :
  0 <= n ->
  Z.testbit (UART1_c.GPIOC_PCTL (UART1_c.UART1_Init r)) n
  = (n <? 32)
    && ((Z.testbit (UART1_c.GPIOC_PCTL r) n && negb (Z.testbit 0xF00F0000 n))
        || Z.testbit 0x20002000 n).
Proof.
  intros Hn. cbn. rewrite or_assign_bit, and_not_assign_bit by lia.
  destruct (n <? 32), (Z.testbit (UART1_c.GPIOC_PCTL r) n),
    (Z.testbit 4027514880 n), (Z.testbit 536879104 n); reflexivity.
Qed.

Lemma registers_ext (x y : UART1_c.registers) :
  UART1_c.SYSCTL_RCGCUART x = UART1_c.SYSCTL_RCGCUART y ->
  UART1_c.SYSCTL_RCGCGPIO x = UART1_c.SYSCTL_RCGCGPIO y ->
  UART1_c.UART1_CTL x = UART1_c.UART1_CTL y ->
  UART1_c.UART1_IBRD x = UART1_c.UART1_IBRD y ->
  UART1_c.UART1_FBRD x = UART1_c.UART1_FBRD y ->
  UART1_c.UART1_LCRH x = UART1_c.UART1_LCRH y ->
  UART1_c.GPIOC_AFSEL x = UART1_c.GPIOC_AFSEL y ->
  UART1_c.GPIOC_PCTL x = UART1_c.GPIOC_PCTL y ->
  UART1_c.GPIOC_DEN x = UART1_c.GPIOC_DEN y ->
  x = y.
Proof.
  destruct x, y. cbn. intros. subst. reflexivity.
Qed.

Lemma UART1_Init_IBRD (r : UART1_c.registers) :
  UART1_c.UART1_IBRD (UART1_c.UART1_Init r) = 325.
Proof. reflexivity. Qed.

Lemma UART1_Init_FBRD (r : UART1_c.registers) :
  UART1_c.UART1_FBRD (UART1_c.UART1_Init r) = 33.
Proof. reflexivity. Qed.

Lemma nibble_high_bits (z n : Z) :
  0 <= z < 16 -> 4 <= n -> Z.testbit z n = false.
Proof.
  intros Hz Hn.
  rewrite <- (Z.mod_small z (2 ^ 4)) by (change (2 ^ 4) with 16; lia).
  apply Z.mod_pow2_bits_high. lia.
Qed.

Lemma PMC_bit (pin pctl n : Z) :
  0 <= pin -> 0 <= n ->
  Z.testbit (UART1_c.PMC pin pctl) n = (n <? 4) && Z.testbit pctl (n + 4 * pin).
Proof.
  intros Hpin Hn. unfold UART1_c.PMC.
  rewrite Z.land_spec, Z.shiftr_spec by lia.
  destruct (Z.ltb_spec n 4).
  - change 0xF with (Z.ones 4). rewrite Z.ones_spec_low by lia.
    now rewrite andb_true_r.
  - rewrite (nibble_high_bits 0xF n) by lia. now rewrite andb_false_r.
Qed.

(** ** The line editor *)

Lemma received_range (dr : Z) : 0 <= received dr < 256.
Proof. apply land_0xFF_range. Qed.

Lemma cast_char_received (dr : Z) : cast_char (received dr) = received dr.
Proof.
  unfold cast_char. apply Z.mod_small, received_range.
Qed.

Lemma UART1_Input_Character_runs (dr : Z) (rest : list Z) (s : State) :
  UART1_rx s = dr :: rest ->
  UART1_Input_Character s
  = Done (received dr) (emits [UART1_DR_read (received dr)] (set_UART1_rx rest s)).
Proof.
  intros Hrx. unfold UART1_Input_Character. rewrite Hrx.
  fold (received dr). now rewrite cast_char_received.
Qed.

Lemma nth_removelast (l : list Z) (i : nat) :
  (i < List.length (removelast l))%nat -> nth i (removelast l) 0 = nth i l 0.
Proof.
  revert i. induction l as [|a [|b l] IH]; intros i Hi.
  - cbn in Hi. lia.
  - cbn in Hi. lia.
  - destruct i as [|i]; [reflexivity|].
    change (removelast (a :: b :: l)) with (a :: removelast (b :: l)) in *.
    cbn [nth List.length] in *. apply IH. lia.
Qed.

Lemma length_removelast (l : list Z) :
  l <> [] -> List.length (removelast l) = pred (List.length l).
Proof.
  induction l as [|a [|b l] IH]; intros Hne.
  - contradiction.
  - reflexivity.
  - change (removelast (a :: b :: l)) with (a :: removelast (b :: l)).
    cbn [List.length]. rewrite IH by discriminate. reflexivity.
Qed.

Lemma cast_uint32_succ (k : Z) :
  cast_uint32 (cast_uint32 k + 1) = cast_uint32 (k + 1).
Proof.
  unfold cast_uint32. now rewrite Zplus_mod_idemp_l.
Qed.

Lemma UART1_Input_String_body_runs (BS cap c : Z) (m0 : UART1_c.memory) (p : Z)
  (l : UART1_c.locals) (text : list Z) (k : Z) (s : State) :
  editing m0 p cap l text k ->
  exists l',
    UART1_c.UART1_Input_String_body BS cap c l s
    = Done l' (emits (if (c =? BS) && negb (Z.of_nat (List.length text) =? 0)
                      then [UART1_DR_write (cast_char BS)] else []) s) /\
    editing m0 p cap l' (type_char BS cap text c)
      (k + (if negb (c =? BS) && (Z.of_nat (List.length text) <? cap)
            then 1 else 0)).
Proof.
  intros (Hlen & Hptr & Hcap & Htext & Hframe & Hsize).
  unfold UART1_c.UART1_Input_String_body, type_char.
  rewrite Hlen. destruct (c =? BS); cbn [negb andb].
  - destruct (Z.eqb_spec (Z.of_nat (List.length text)) 0) as [H0|Hpos]; cbn [negb].
    + eexists. split; [now rewrite emits_nil|].
      destruct text; [|cbn in H0; lia]. cbn [removelast].
      rewrite Z.add_0_r. repeat split; assumption.
    + eexists. split.
      { unfold UART1_Output_Character. erewrite bind_Done by (apply call_runs).
        reflexivity. }
      assert (Hne : text <> []) by (intros ->; cbn in Hpos; lia).
      rewrite Z.add_0_r. unfold editing. cbn.
      rewrite (length_removelast text Hne).
      repeat split; try assumption; try lia.
      intros i Hi. rewrite length_removelast in Hi by exact Hne.
      rewrite nth_removelast by (rewrite length_removelast by exact Hne; exact Hi).
      apply Htext. lia.
  - destruct (Z.ltb_spec (Z.of_nat (List.length text)) cap) as [Hroom|Hfull].
    + eexists. split; [now rewrite emits_nil|].
      unfold editing. cbn. rewrite length_app. cbn [List.length].
      split; [lia|]. split; [lia|]. split; [lia|]. split; [|split].
      * intros i Hi. rewrite length_app in Hi. cbn in Hi.
        unfold UART1_c.store. rewrite Hptr, Hlen.
        destruct (Z.eqb_spec (p + Z.of_nat i) (p + Z.of_nat (List.length text)))
          as [Heq|Hneq].
        -- assert (i = List.length text) by lia. subst i.
           now rewrite nth_middle.
        -- rewrite app_nth1 by lia. apply Htext. lia.
      * intros q Hq. unfold UART1_c.store. rewrite Hptr, Hlen.
        destruct (Z.eqb_spec q (p + Z.of_nat (List.length text))); [lia|].
        now apply Hframe.
      * rewrite Hsize. apply cast_uint32_succ.
    + eexists. split; [now rewrite emits_nil|].
      rewrite Z.add_0_r. repeat split; assumption.
Qed.

Lemma UART1_Input_String_while_exit (CR BS : Z) (fuel : nat) (cap : Z)
  (l : UART1_c.locals) (s : State) :
  UART1_c.UART1_Input_String_while CR BS fuel cap CR l s = Done l s.
Proof.
  destruct fuel; cbn [UART1_c.UART1_Input_String_while];
    now rewrite Z.eqb_refl.
Qed.

Lemma UART1_Input_String_loop_runs (CR BS cap : Z) (m0 : UART1_c.memory) (p : Z)
  (line : list Z) :
  forall (cr : Z) (rest : list Z) (fuel : nat) (l : UART1_c.locals)
         (text : list Z) (k : Z) (s : State),
    editing m0 p cap l text k ->
    UART1_rx s = line ++ cr :: rest ->
    Forall (fun dr => received dr <> CR) line ->
    received cr = CR ->
    (List.length line <= fuel)%nat ->
    exists l',
      (character <- UART1_Input_Character ;;
       UART1_c.UART1_Input_String_while CR BS fuel cap character l) s
      = Done l' (emits (line_trace BS cap text line ++ [UART1_DR_read CR])
                       (set_UART1_rx rest s)) /\
      editing m0 p cap l' (typed BS cap text (map received line))
        (k + accepted BS cap text (map received line)).
Proof.
  induction line as [|dr line IH]; intros cr rest fuel l text k s Hed Hrx Hline Hcr Hfuel.
  - cbn [app] in Hrx. exists l. split.
    + erewrite bind_Done by (apply UART1_Input_Character_runs; exact Hrx).
      rewrite Hcr. apply UART1_Input_String_while_exit.
    + cbn. now rewrite Z.add_0_r.
  - destruct fuel as [|fuel]; [cbn in Hfuel; lia|].
    cbn [app] in Hrx. apply Forall_cons_iff in Hline as [Hdr Hline'].
    destruct (UART1_Input_String_body_runs BS cap (received dr) m0 p l text k
                (emits [UART1_DR_read (received dr)]
                       (set_UART1_rx (line ++ cr :: rest) s)) Hed)
      as (l1 & Hbody & Hed1).
    destruct (IH cr rest fuel l1 _ _
                (emits (if (received dr =? BS)
                           && negb (Z.of_nat (List.length text) =? 0)
                        then [UART1_DR_write (cast_char BS)] else [])
                       (emits [UART1_DR_read (received dr)]
                              (set_UART1_rx (line ++ cr :: rest) s)))
                Hed1 eq_refl Hline' Hcr)
      as (l' & Hrun & Hed').
    + cbn in Hfuel. lia.
    + exists l'. split.
      * erewrite bind_Done by (apply UART1_Input_Character_runs; exact Hrx).
        cbn [UART1_c.UART1_Input_String_while].
        apply Z.eqb_neq in Hdr. rewrite Hdr. cbn [negb].
        erewrite bind_Done by exact Hbody.
        rewrite Hrun. f_equal.
        unfold emits, set_UART1_rx. cbn [Security_c main_c last_button_status
          UART1_rx trace line_trace].
        f_equal. rewrite <- ?app_assoc. cbn [app]. rewrite <- ?app_assoc. reflexivity.
      * cbn [map typed fold_left accepted] in *. unfold typed in Hed'.
        rewrite Z.add_assoc. exact Hed'.
Qed.

Lemma UART1_Input_String_runs (CR BS : Z) (fuel : nat) (m : UART1_c.memory)
  (p size : Z) (line : list Z) (cr : Z) (rest : list Z) (s : State) :
  UART1_rx s = line ++ cr :: rest ->
  Forall (fun dr => received dr <> CR) line ->
  received cr = CR ->
  (List.length line <= fuel)%nat ->
  let cap := cast_uint16 size in
  let text := typed BS cap [] (map received line) in
  exists m',
    UART1_c.UART1_Input_String CR BS fuel m p size s
    = Done (cast_uint32 (accepted BS cap [] (map received line)), m')
           (emits (line_trace BS cap [] line ++ [UART1_DR_read CR])
                  (set_UART1_rx rest s)) /\
    holds_text m' p text /\
    m' (p + Z.of_nat (List.length text)) = 0 /\
    Z.of_nat (List.length text) <= cap /\
    (forall q, q < p \/ p + cap < q -> m' q = m q).
Proof.
  intros Hrx Hline Hcr Hfuel cap text.
  assert (Hcap : 0 <= cap) by (apply Z.mod_pos_bound; lia).
  destruct (UART1_Input_String_loop_runs CR BS cap m p line cr rest fuel
              (UART1_c.mkLocals m p 0 0) [] 0 s)
    as (l' & Hrun & Hlen & Hptr & Hle & Htext & Hframe & Hsize); try assumption.
  { repeat split; cbn; try lia. intros i Hi. cbn in Hi. lia. }
  fold cap in Hrun. fold text in Hlen, Htext.
  exists (UART1_c.store (UART1_c.mem l') (UART1_c.buffer_pointer l') 0).
  split; [|split; [|split; [|split]]].
  - unfold UART1_c.UART1_Input_String. fold cap.
    unfold bind in Hrun |- *.
    destruct (UART1_Input_Character s) as [c s1| |]; try discriminate.
    rewrite Hrun. unfold ret. rewrite Hsize. reflexivity.
  - intros i Hi. unfold UART1_c.store. rewrite Hptr, Hlen.
    destruct (Z.eqb_spec (p + Z.of_nat i) (p + Z.of_nat (List.length text)));
      [lia|].
    now apply Htext.
  - unfold UART1_c.store. rewrite Hptr, Hlen. now rewrite Z.eqb_refl.
  - lia.
  - intros q Hq. unfold UART1_c.store. rewrite Hptr, Hlen.
    destruct (Z.eqb_spec q (p + Z.of_nat (List.length text))); [lia|].
    apply Hframe. lia.
Qed.

Lemma UART1_Input_String_loop_starved (CR BS cap : Z) (m0 : UART1_c.memory)
  (p : Z) (line : list Z) :
  forall (fuel : nat) (l : UART1_c.locals) (text : list Z) (k : Z) (s : State),
    editing m0 p cap l text k ->
    UART1_rx s = line ->
    Forall (fun dr => received dr <> CR) line ->
    (List.length line <= fuel)%nat ->
    (character <- UART1_Input_Character ;;
     UART1_c.UART1_Input_String_while CR BS fuel cap character l) s
    = Blocked (emits (line_trace BS cap text line) (set_UART1_rx [] s)).
Proof.
  induction line as [|dr line IH]; intros fuel l text k s Hed Hrx Hline Hfuel.
  - unfold bind, UART1_Input_Character. rewrite Hrx. cbn [line_trace].
    rewrite emits_nil. destruct s. unfold set_UART1_rx. cbn in *. now subst.
  - destruct fuel as [|fuel]; [cbn in Hfuel; lia|].
    apply Forall_cons_iff in Hline as [Hdr Hline'].
    destruct (UART1_Input_String_body_runs BS cap (received dr) m0 p l text k
                (emits [UART1_DR_read (received dr)] (set_UART1_rx line s)) Hed)
      as (l1 & Hbody & Hed1).
    erewrite bind_Done by (apply UART1_Input_Character_runs; exact Hrx).
    cbn [UART1_c.UART1_Input_String_while].
    apply Z.eqb_neq in Hdr. rewrite Hdr. cbn [negb].
    erewrite bind_Done by exact Hbody.
    erewrite (IH fuel l1); [|exact Hed1|reflexivity|exact Hline'|cbn in Hfuel; lia].
    f_equal. unfold emits, set_UART1_rx. cbn [Security_c main_c last_button_status
      UART1_rx trace line_trace].
    f_equal. rewrite <- ?app_assoc. cbn [app]. rewrite <- ?app_assoc. reflexivity.
Qed.

Lemma sent_app (a b : list Event) : sent (a ++ b) = sent a ++ sent b.
Proof.
  induction a as [|e a IH]; [reflexivity|].
  destruct e; cbn [app sent]; now rewrite IH.
Qed.

Lemma sent_line_trace (BS cap : Z) (line : list Z) :
  forall text : list Z,
    sent (line_trace BS cap text line)
    = repeat (cast_char BS) (erased BS cap text (map received line)).
Proof.
  induction line as [|dr line IH]; intros text; [reflexivity|].
  cbn [line_trace map erased sent].
  rewrite sent_app, IH.
  destruct ((received dr =? BS) && negb (Z.of_nat (List.length text) =? 0));
    reflexivity.
Qed.

Lemma typed_length (BS cap : Z) (cs : list Z) :
  forall text : list Z,
    Z.of_nat (List.length (typed BS cap text cs))
    = Z.of_nat (List.length text) + accepted BS cap text cs
      - Z.of_nat (erased BS cap text cs).
Proof.
  induction cs as [|c cs IH]; intros text.
  - cbn. lia.
  - cbn [typed fold_left accepted erased]. fold (typed BS cap (type_char BS cap text c) cs).
    rewrite IH. unfold type_char.
    destruct (c =? BS); cbn [negb andb].
    + destruct (Z.eqb_spec (Z.of_nat (List.length text)) 0) as [H0|Hpos]; cbn [negb].
      * destruct text; [cbn; lia|cbn in H0; lia].
      * rewrite length_removelast by (intros ->; cbn in Hpos; lia). lia.
    + destruct (Z.ltb_spec (Z.of_nat (List.length text)) cap).
      * rewrite length_app. cbn [List.length]. lia.
      * lia.
Qed.

Lemma typed_plain (BS cap : Z) (cs : list Z) :
  Forall (fun c => c <> BS) cs ->
  forall text : list Z,
    typed BS cap text cs
    = text ++ firstn (Z.to_nat (cap - Z.of_nat (List.length text))) cs /\
    erased BS cap text cs = 0%nat.
Proof.
  induction cs as [|c cs IH]; intros Hplain text.
  - cbn. rewrite firstn_nil, app_nil_r. split; reflexivity.
  - apply Forall_cons_iff in Hplain as [Hc Hplain].
    cbn [typed fold_left erased]. fold (typed BS cap (type_char BS cap text c) cs).
    destruct (IH Hplain (type_char BS cap text c)) as (Htyped & Herased).
    rewrite Htyped, Herased. unfold type_char.
    apply Z.eqb_neq in Hc. rewrite Hc. cbn [andb].
    destruct (Z.ltb_spec (Z.of_nat (List.length text)) cap) as [Hroom|Hfull].
    + rewrite length_app. cbn [List.length].
      replace (Z.to_nat (cap - Z.of_nat (List.length text)))
        with (S (Z.to_nat (cap - Z.of_nat (List.length text + 1)))) by lia.
      cbn [firstn]. rewrite <- app_assoc. split; reflexivity.
    + replace (Z.to_nat (cap - Z.of_nat (List.length text))) with O by lia.
      split; reflexivity.
Qed.

Lemma UART1_Output_String_runs (text : list Z) :
  forall (fuel : nat) (m : UART1_c.memory) (pt : Z) (s : State),
    holds_text m pt text ->
    Forall (fun c => c <> 0) text ->
    m (pt + Z.of_nat (List.length text)) = 0 ->
    (List.length text <= fuel)%nat ->
    UART1_c.UART1_Output_String fuel m pt s
    = Done tt (emits (map UART1_DR_write text) s).
Proof.
  induction text as [|c text IH]; intros fuel m pt s Htext Hnz Hend Hfuel.
  - cbn in Hend. rewrite Z.add_0_r in Hend.
    destruct fuel; cbn [UART1_c.UART1_Output_String]; rewrite Hend; cbn;
      now rewrite emits_nil.
  - destruct fuel as [|fuel]; [cbn in Hfuel; lia|].
    apply Forall_cons_iff in Hnz as [Hc Hnz].
    assert (Hhead : m pt = c).
    { specialize (Htext O). cbn in Htext. rewrite Z.add_0_r in Htext.
      apply Htext. lia. }
    cbn [UART1_c.UART1_Output_String]. rewrite Hhead.
    apply Z.eqb_neq in Hc. rewrite Hc. cbn [negb].
    unfold UART1_Output_Character. erewrite bind_Done by (apply call_runs).
    rewrite (IH fuel m (pt + 1)).
    + rewrite emits_emits. reflexivity.
    + intros i Hi. specialize (Htext (S i)). cbn [List.length nth] in Htext.
      rewrite <- Htext by lia. f_equal. lia.
    + exact Hnz.
    + rewrite <- Hend. f_equal. cbn [List.length]. lia.
    + cbn in Hfuel. lia.
Qed.

(** The arm command right after reset, step by step. *)
Lemma main_arm_from_reset (fuel : nat) (rx : list Z) :
  main fuel [0x08] (reset rx) =
    Done tt (mkState (mkStatics 0 0) (mkStatics 1 0) 0x08 rx
               (trace (booted rx)
                ++ status_trace "System Armed"
                ++ main_menu_trace ++ main_menu_trace
                ++ [SysTick_Delay1ms 10])).
Proof.
  destruct fuel; vm_compute; reflexivity.
Qed.

(** * The claims *)

(** C1 (what the code does instead). After reset and the arm command the
    menu holds the system Armed, and the sensor is ready to answer a query
    with a reading [d], [0 < d <= 50]; yet no query is sent, the answer is
    left in the receive queue and no alert sequence starts, and calling
    [System_Armed] once more in that state only redraws the menu. *)
Theorem breach_reading_while_Armed_starts_no_alert :
  forall (fuel fuel' : nat) (d : Z) (rest : list Z),
    0 < d <= 50 ->
    let rx := d / 256 :: d mod 256 :: rest in
    exists s',
      main fuel [0x08] (reset rx) = Done tt s' /\
      system_armed (main_c s') = 1 /\
      within_threshold (distance_of (d / 256) (d mod 256)) = true /\
      UART1_rx s' = rx /\
      sensor_polls (trace s') = 0%nat /\
      alert_invocations (trace s') = 0%nat /\
      System_Armed fuel' s' = Done tt (emits main_menu_trace s').
Proof.
  intros fuel fuel' d rest Hd rx.
  assert (Hbreach : within_threshold (distance_of (d / 256) (d mod 256)) = true).
  { apply within_threshold_iff. rewrite distance_of_big_endian.
    change 0xFF with (Z.ones 8). rewrite !Z.land_ones by lia.
    change (2 ^ 8) with 256. rewrite Z.mod_mod by lia.
    rewrite (Z.div_small d 256) by lia. rewrite (Z.mod_small d 256) by lia.
    cbn. lia. }
  generalize rx. clear rx. intros rx.
  eexists. split; [apply main_arm_from_reset|].
  split; [reflexivity|]. split; [exact Hbreach|]. split; [reflexivity|].
  split; [reflexivity|]. split; [reflexivity|].
  rewrite System_Armed_skips by reflexivity. reflexivity.
Qed.

Lemma breach_reading_while_Armed_starts_no_alert_witness :
  exists s',
    main 3 [0x08] (reset [0; 30]) = Done tt s' /\
    system_armed (main_c s') = 1 /\
    UART1_rx s' = [0; 30] /\
    alert_invocations (trace s') = 0%nat.
Proof.
  destruct (breach_reading_while_Armed_starts_no_alert 3 3 30 [])
    as (s' & Hrun & Harmed & _ & Hrx & _ & Hnone & _).
  - lia.
  - exists s'. split; [exact Hrun|]. split; [exact Harmed|].
    split; [exact Hrx|exact Hnone].
Defined.

(** C2. Whatever buttons are sampled and whatever the sensor would send,
    [main] keeps the armed flag of Security.c at zero: the sensor is never
    queried, the receive queue is never read, [System_Armed] does nothing but
    redraw the menu, and every alert sequence in the trace stems from a
    manual-trigger edge. *)
Theorem Security_c_flag_never_set :
  forall (fuel : nat) (samples rx : list Z),
  exists s',
    main fuel samples (reset rx) = Done tt s' /\
    system_armed (Security_c s') = 0 /\
    sensor_polls (trace s') = 0%nat /\
    UART1_rx s' = rx /\
    alert_invocations (trace s') = trigger_edges 0 samples /\
    forall fuel', System_Armed fuel' s' = Done tt (emits main_menu_trace s').
Proof.
  intros fuel samples rx.
  destruct (main_runs fuel samples rx) as (s' & Hrun & (Hsec & Halert & Hpolls) & Hrx & Hal).
  exists s'. split; [exact Hrun|].
  split; [now rewrite Hsec|]. split; [exact Hpolls|]. split; [exact Hrx|].
  split; [exact Hal|].
  intros fuel'. rewrite System_Armed_skips by now rewrite Hsec.
  do 2 f_equal. destruct s' as [sec mn last rx' tr]. cbn in Hsec. subst sec.
  reflexivity.
Qed.

(** C3 (what the code does instead). After reset, the arm command sets the
    flag of main.c, shows "System Armed" and calls [System_Armed], whose
    loop tests the flag of Security.c: control is back in the main loop
    without a single sensor query, whatever the sensor was ready to send. *)
Theorem arm_command_never_polls :
  forall (fuel : nat) (rx : list Z),
    main fuel [0x08] (reset rx) =
      Done tt (mkState (mkStatics 0 0) (mkStatics 1 0) 0x08 rx
                 (trace (booted rx)
                  ++ status_trace "System Armed"
                  ++ main_menu_trace ++ main_menu_trace
                  ++ [SysTick_Delay1ms 10])) /\
    sensor_polls (trace (booted rx) ++ status_trace "System Armed"
                  ++ main_menu_trace ++ main_menu_trace
                  ++ [SysTick_Delay1ms 10]) = 0%nat.
Proof.
  intros fuel rx. split; [|reflexivity].
  unfold main. erewrite bind_Done by (apply main_prologue_runs).
  cbn [main_while]. unfold main_iteration.
  erewrite bind_Done.
  2:{ erewrite bind_Done.
      2:{ change (cast_uint8 0x08) with 0x08.
          rewrite Menu_Controller_edge by (cbn; discriminate).
          unfold dispatch. cbn [Z.eqb Pos.eqb].
          apply case_SW2_arms; reflexivity. }
      apply call_runs. }
  reflexivity.
Qed.

(** C4 (what the code does instead). [Intruder_Alert] never writes the
    statics of main.c, so it does not disarm the system the menu knows:
    armed and then triggered by hand, the program runs the alert sequence,
    keeps the armed flag of main.c at 1, and answers the next arm command
    with "Already Armed". *)
Theorem alert_leaves_menu_armed :
  (forall s : State,
     exists s', Intruder_Alert s = Done tt s' /\ main_c s' = main_c s) /\
  (forall (fuel : nat) (rx : list Z),
     main fuel [0x08; 0x01; 0x00; 0x08] (reset rx) =
       Done tt (mkState (mkStatics 0 0) (mkStatics 1 0) 0x08 rx
                  (trace (booted rx)
                   ++ status_trace "System Armed"
                   ++ main_menu_trace ++ main_menu_trace
                   ++ [SysTick_Delay1ms 10]
                   ++ alert_trace ++ [SysTick_Delay1ms 10]
                   ++ [SysTick_Delay1ms 10]
                   ++ status_trace "Already Armed" ++ main_menu_trace
                   ++ [SysTick_Delay1ms 10]))).
Proof.
  split.
  - intros s. exists (after_alert s). split; [apply Intruder_Alert_runs|reflexivity].
  - intros fuel rx. destruct fuel; vm_compute; reflexivity.
Qed.

(** C5, as stated, fails: right after reset, with both armed flags down, the
    trigger mask 0x01 starts the alert sequence. *)
Lemma Alerting_entered_while_Disarmed : ~ Alerting_only_from_Armed.
Proof.
  intros Hclaim.
  assert (Harmed : Armed (booted [])).
  { apply (Hclaim 0%nat 0x01).
    - apply Reachable_booted.
    - eexists. split; [reflexivity|]. vm_compute. lia. }
  destruct Harmed as [H|H]; apply H; reflexivity.
Qed.

(** C5, amended. The alert sequence runs from any state, Armed or Disarmed;
    it always completes; on exit the armed flag and the alert flag of
    Security.c are down, and a system that was Disarmed when the sequence
    began is Disarmed when it ends: the sequence never arms. *)
Theorem alert_exit_never_arms :
  forall s : State,
  exists s',
    Intruder_Alert s = Done tt s' /\
    system_armed (Security_c s') = 0 /\
    alert_active (Security_c s') = 0 /\
    (system_armed (main_c s) = 0 -> Disarmed s').
Proof.
  intros s. exists (after_alert s). split; [apply Intruder_Alert_runs|].
  split; [reflexivity|]. split; [reflexivity|].
  intros H0. split; [exact H0|reflexivity].
Qed.

Lemma alert_exit_never_arms_witness :
  exists s', Intruder_Alert (booted []) = Done tt s' /\ Disarmed s'.
Proof.
  destruct (alert_exit_never_arms (booted [])) as (s' & Hrun & _ & _ & Hdis).
  exists s'. split; [exact Hrun|]. apply Hdis. reflexivity.
Defined.

(** C6. [Get_Distance] writes the one command byte 0x55, reads the data
    register exactly twice and returns the first byte shifted left by eight
    or-ed with the second, a value below 2^16 equal to [256 * first + second];
    nothing is validated, and with fewer than two bytes to come it never
    returns. *)
Theorem Get_Distance_protocol :
  forall (dr1 dr2 : Z) (rest : list Z) (s : State),
    let first := Z.land dr1 0xFF in
    let second := Z.land dr2 0xFF in
    Get_Distance (set_UART1_rx (dr1 :: dr2 :: rest) s) =
      Done (Z.lor (Z.shiftl first 8) second)
           (mkState (Security_c s) (main_c s) (last_button_status s) rest
              (trace s ++ [ UART1_DR_write 0x55;
                            UART1_DR_read first; UART1_DR_read second ])) /\
    Z.lor (Z.shiftl first 8) second = 256 * first + second /\
    0 <= Z.lor (Z.shiftl first 8) second < 65536 /\
    (exists s', Get_Distance (set_UART1_rx [dr1] s) = Blocked s') /\
    (exists s', Get_Distance (set_UART1_rx [] s) = Blocked s').
Proof.
  intros dr1 dr2 rest s first second. repeat split.
  - rewrite (Get_Distance_runs dr1 dr2 rest) by reflexivity. reflexivity.
  - apply distance_of_big_endian.
  - apply (distance_of_range dr1 dr2).
  - apply (distance_of_range dr1 dr2).
  - apply Get_Distance_starved. cbn. lia.
  - apply Get_Distance_starved. cbn. lia.
Qed.

(** C7. The trigger mask 0x01, whenever it is a new mask, runs the whole
    alert sequence whatever the armed flags hold; issued while Disarmed, the
    sequence completes and the system is Disarmed afterwards. *)
Theorem manual_trigger_not_gated :
  forall (fuel : nat) (s : State),
    last_button_status s <> 0x01 ->
    let s' := after_alert (set_last_button_status 0x01 s) in
    Menu_Controller fuel 0x01 s = Done tt s' /\
    trace s' = trace s ++ alert_trace /\
    (Disarmed s -> Disarmed s').
Proof.
  intros fuel s Hlast s'. split; [|split].
  - rewrite Menu_Controller_edge by now apply not_eq_sym.
    unfold dispatch. cbn [Z.eqb Pos.eqb]. unfold case_SW5.
    apply Intruder_Alert_runs.
  - reflexivity.
  - intros (Hmain & _). split; [exact Hmain|reflexivity].
Qed.

Lemma manual_trigger_not_gated_witness :
  Menu_Controller 0 0x01 (booted [])
  = Done tt (after_alert (set_last_button_status 0x01 (booted []))) /\
  Disarmed (after_alert (set_last_button_status 0x01 (booted []))).
Proof.
  destruct (manual_trigger_not_gated 0 (booted [])) as (Hrun & _ & Hdis).
  - cbn. discriminate.
  - split; [exact Hrun|]. apply Hdis. split; reflexivity.
Defined.

(** C8. The disarm mask 0x04, issued as a new mask while the menu's armed
    flag is up, clears that flag (in a reachable state both armed flags are
    then down), shows "System Disarmed" and the menu, and queries no sensor;
    nor is the sensor queried in any later turn of the main loop until an arm
    mask is sampled. *)
Theorem disarm_from_Armed :
  forall (fuel : nat) (s : State),
    system_armed (main_c s) <> 0 ->
    last_button_status s <> 0x04 ->
    let s' := emits (status_trace "System Disarmed" ++ main_menu_trace)
                    (set_main_c (set_system_armed 0 (main_c s))
                                (set_last_button_status 0x04 s)) in
    Menu_Controller fuel 0x04 s = Done tt s' /\
    system_armed (main_c s') = 0 /\
    (Reachable s -> Disarmed s') /\
    sensor_polls (trace s') = sensor_polls (trace s) /\
    forall (fuel' : nat) (samples : list Z),
      Forall not_arm samples ->
      exists s'', main_while fuel' samples s' = Done tt s'' /\
                  sensor_polls (trace s'') = sensor_polls (trace s) /\
                  UART1_rx s'' = UART1_rx s.
Proof.
  intros fuel s Harmed Hlast s'.
  assert (Hpolls : sensor_polls (trace s') = sensor_polls (trace s)).
  { unfold s'. rewrite polls_emits by reflexivity. reflexivity. }
  split; [|split; [reflexivity|split; [|split; [exact Hpolls|]]]].
  - rewrite Menu_Controller_edge by now apply not_eq_sym.
    unfold dispatch. cbn [Z.eqb Pos.eqb].
    now rewrite case_SW3_disarms.
  - intros Hreach. destruct (Reachable_quiescent s Hreach) as (Hsec & _).
    split; [reflexivity|]. cbn. now rewrite Hsec.
  - intros fuel' samples Hall.
    destruct (main_while_no_arm fuel' samples s' Hall) as (s'' & Hrun & Hp & Hrx).
    exists s''. split; [exact Hrun|]. split; [now rewrite Hp|exact Hrx].
Qed.

Lemma disarm_from_Armed_witness :
  exists s',
    Menu_Controller 0 0x04 (mkState (mkStatics 0 0) (mkStatics 1 0) 0x08 [] [])
    = Done tt s' /\ system_armed (main_c s') = 0.
Proof.
  destruct (disarm_from_Armed 0 (mkState (mkStatics 0 0) (mkStatics 1 0) 0x08 [] []))
    as (Hrun & Hflag & _).
  - cbn. discriminate.
  - cbn. discriminate.
  - eexists. split; [exact Hrun|exact Hflag].
Defined.

(** C9. An arm mask met with the armed flag up changes no flag and shows
    "Already Armed", and a disarm mask met with the armed flag down changes
    no flag and shows "Already Disarmed", the menu following each; this holds
    in every state, and both messages do appear in runs of [main]: on arm,
    release, arm, and on a disarm right after reset.  No alert flag is up in
    any state in which [main] samples the buttons, so no command is ever
    dispatched during the alert sequence. *)
Theorem redundant_commands :
  forall (fuel : nat) (s : State),
    (system_armed (main_c s) <> 0 -> last_button_status s <> 0x08 ->
     Menu_Controller fuel 0x08 s =
       Done tt (mkState (Security_c s) (main_c s) 0x08 (UART1_rx s)
                  (trace s ++ status_trace "Already Armed" ++ main_menu_trace))) /\
    (system_armed (main_c s) = 0 -> last_button_status s <> 0x04 ->
     Menu_Controller fuel 0x04 s =
       Done tt (mkState (Security_c s) (main_c s) 0x04 (UART1_rx s)
                  (trace s ++ status_trace "Already Disarmed" ++ main_menu_trace))) /\
    (Reachable s ->
     alert_active (Security_c s) = 0 /\ alert_active (main_c s) = 0) /\
    (forall rx : list Z,
       main fuel [0x08; 0x00; 0x08] (reset rx) =
         Done tt (mkState (mkStatics 0 0) (mkStatics 1 0) 0x08 rx
                    (trace (booted rx)
                     ++ status_trace "System Armed"
                     ++ main_menu_trace ++ main_menu_trace
                     ++ [SysTick_Delay1ms 10]
                     ++ [SysTick_Delay1ms 10]
                     ++ status_trace "Already Armed" ++ main_menu_trace
                     ++ [SysTick_Delay1ms 10]))) /\
    (forall rx : list Z,
       main fuel [0x04] (reset rx) =
         Done tt (mkState (mkStatics 0 0) (mkStatics 0 0) 0x04 rx
                    (trace (booted rx)
                     ++ status_trace "Already Disarmed" ++ main_menu_trace
                     ++ [SysTick_Delay1ms 10]))).
Proof.
  intros fuel s. split; [|split; [|split; [|split]]].
  - intros Harmed Hlast.
    rewrite Menu_Controller_edge by now apply not_eq_sym.
    unfold dispatch. cbn [Z.eqb Pos.eqb].
    now rewrite case_SW2_already.
  - intros Hdis Hlast.
    rewrite Menu_Controller_edge by now apply not_eq_sym.
    unfold dispatch. cbn [Z.eqb Pos.eqb].
    now rewrite case_SW3_already.
  - intros Hreach.
    destruct (Reachable_quiescent s Hreach) as (Hsec & Halert & _).
    split; [now rewrite Hsec|exact Halert].
  - intros rx. destruct fuel; vm_compute; reflexivity.
  - intros rx. destruct fuel; vm_compute; reflexivity.
Qed.

Lemma redundant_commands_witness :
  main 0 [0x08; 0x00] (reset [])
  = Done tt (mkState (mkStatics 0 0) (mkStatics 1 0) 0x00 []
               (trace (booted []) ++ status_trace "System Armed"
                ++ main_menu_trace ++ main_menu_trace
                ++ [SysTick_Delay1ms 10; SysTick_Delay1ms 10])) /\
  Menu_Controller 0 0x08
    (mkState (mkStatics 0 0) (mkStatics 1 0) 0x00 []
       (trace (booted []) ++ status_trace "System Armed"
        ++ main_menu_trace ++ main_menu_trace
        ++ [SysTick_Delay1ms 10; SysTick_Delay1ms 10]))
  = Done tt (mkState (mkStatics 0 0) (mkStatics 1 0) 0x08 []
               ((trace (booted []) ++ status_trace "System Armed"
                 ++ main_menu_trace ++ main_menu_trace
                 ++ [SysTick_Delay1ms 10; SysTick_Delay1ms 10])
                ++ status_trace "Already Armed" ++ main_menu_trace)) /\
  Menu_Controller 0 0x04 (booted [])
  = Done tt (mkState (mkStatics 0 0) (mkStatics 0 0) 0x04 []
               (trace (booted []) ++ status_trace "Already Disarmed"
                ++ main_menu_trace)).
Proof.
  split; [vm_compute; reflexivity|]. split.
  - destruct (redundant_commands 0
                (mkState (mkStatics 0 0) (mkStatics 1 0) 0x00 []
                   (trace (booted []) ++ status_trace "System Armed"
                    ++ main_menu_trace ++ main_menu_trace
                    ++ [SysTick_Delay1ms 10; SysTick_Delay1ms 10])))
      as (Harmed & _).
    apply Harmed; cbn; discriminate.
  - destruct (redundant_commands 0 (booted [])) as (_ & Hdis & _).
    apply Hdis; [reflexivity|cbn; discriminate].
Defined.

(** C10. The menu acts on mask edges only: a mask equal to the stored one
    does nothing at all; a new mask is stored and then dispatched on exact
    match, 0x01 to the alert sequence, 0x02 to the redraw, 0x04 to the disarm
    case, 0x08 to the arm case, every other value to nothing; and a mask held
    over further samples costs one dispatch followed by idle turns. *)
Theorem edge_triggered_one_hot :
  forall (fuel : nat) (b : Z) (s : State),
    (b = last_button_status s -> Menu_Controller fuel b s = Done tt s) /\
    (b <> last_button_status s ->
     (b = 0x01 ->
      Menu_Controller fuel b s
      = Done tt (after_alert (set_last_button_status b s))) /\
     (b = 0x02 ->
      Menu_Controller fuel b s
      = Done tt (emits (EduBase_LCD_Clear_Display :: main_menu_trace
                        ++ [SysTick_Delay1ms 20])
                       (set_last_button_status b s))) /\
     (b = 0x04 ->
      Menu_Controller fuel b s = case_SW3 (set_last_button_status b s)) /\
     (b = 0x08 ->
      Menu_Controller fuel b s = case_SW2 fuel (set_last_button_status b s)) /\
     (b <> 0x01 -> b <> 0x02 -> b <> 0x04 -> b <> 0x08 ->
      Menu_Controller fuel b s = Done tt (set_last_button_status b s))) /\
    (forall n : nat,
       main_while fuel (repeat b (S n)) s
       = (main_iteration fuel b ;; modify (idle_turns n)) s).
Proof.
  intros fuel b s. split; [apply Menu_Controller_same|]. split.
  - intros Hne. rewrite (Menu_Controller_edge fuel b s Hne). unfold dispatch.
    repeat split.
    + intros ->. cbn [Z.eqb Pos.eqb]. apply Intruder_Alert_runs.
    + intros ->. cbn [Z.eqb Pos.eqb]. apply case_SW4_runs.
    + intros ->. reflexivity.
    + intros ->. reflexivity.
    + intros H1 H2 H4 H8.
      apply Z.eqb_neq in H1, H2, H4, H8. now rewrite H8, H4, H1, H2.
  - intros n. cbn [repeat main_while]. unfold bind at 1 2.
    destruct (main_iteration fuel b s) as [[] s1| |] eqn:E; try reflexivity.
    unfold modify. apply main_while_held.
    unfold main_iteration in E. unfold bind in E.
    destruct (Menu_Controller fuel (cast_uint8 b) s) as [[] s0| |] eqn:E0;
      try discriminate.
    rewrite call_runs in E. injection E as <-.
    cbn [emits last_button_status].
    exact (Menu_Controller_stores_mask fuel _ s s0 E0).
Qed.

Lemma edge_triggered_one_hot_witness :
  Menu_Controller 0 0x03 (booted [])
  = Done tt (set_last_button_status 0x03 (booted [])) /\
  Menu_Controller 0 0x03 (set_last_button_status 0x03 (booted []))
  = Done tt (set_last_button_status 0x03 (booted [])).
Proof.
  split.
  - destruct (edge_triggered_one_hot 0 0x03 (booted [])) as (_ & Hedge & _).
    destruct Hedge as (_ & _ & _ & _ & Hother).
    + cbn. discriminate.
    + apply Hother; discriminate.
  - destruct (edge_triggered_one_hot 0 0x03 (set_last_button_status 0x03 (booted [])))
      as (Hsame & _).
    apply Hsame. reflexivity.
Defined.

(** * Further properties *)

(** X1. A reading is within the threshold exactly when the low eight bits of
    the first data-register value are all zero and those of the second lie
    between 1 and 50: no answer with a non-zero high byte ever breaches. *)
Theorem breach_iff_answer_bytes :
  forall dr1 dr2 : Z,
    within_threshold (distance_of dr1 dr2) = true <->
    Z.land dr1 0xFF = 0 /\ 1 <= Z.land dr2 0xFF <= 50.
Proof.
  intros dr1 dr2. rewrite within_threshold_iff, distance_of_big_endian.
  pose proof (land_0xFF_range dr1). pose proof (land_0xFF_range dr2). lia.
Qed.

(** X2. Round trip of the sensor protocol: when the sensor answers a query
    with the high byte and then the low byte of a 16-bit value, [Get_Distance]
    returns that value. *)
Theorem Get_Distance_decodes :
  forall (d : Z) (rest : list Z) (s : State),
    0 <= d < 65536 ->
    Get_Distance (set_UART1_rx (d / 256 :: d mod 256 :: rest) s) =
      Done d (emits (poll_trace (d / 256) (d mod 256)) (set_UART1_rx rest s)).
Proof.
  intros d rest s Hd.
  rewrite (Get_Distance_runs (d / 256) (d mod 256) rest) by reflexivity.
  assert (Hval : distance_of (d / 256) (d mod 256) = d).
  { rewrite distance_of_big_endian, !land_0xFF_mod.
    rewrite Z.mod_mod by lia.
    rewrite (Z.mod_small (d / 256)).
    - pose proof (Z.div_mod d 256). lia.
    - split; [apply Z.div_pos; lia|apply Z.div_lt_upper_bound; lia]. }
  rewrite Hval. reflexivity.
Qed.

Lemma Get_Distance_decodes_witness :
  Get_Distance (set_UART1_rx [1; 44; 9] (reset []))
  = Done 300 (emits (poll_trace 1 44) (set_UART1_rx [9] (reset []))).
Proof.
  apply (Get_Distance_decodes 300 [9] (reset [])). lia.
Defined.

(** X3. Nothing above the low eight bits of the data register (where the
    UART reports receive errors) reaches the result or the trace:
    [Get_Distance] behaves the same whatever those bits hold. *)
Theorem Get_Distance_ignores_upper_bits :
  forall (dr1 dr2 e1 e2 : Z) (rest : list Z) (s : State),
    Get_Distance (set_UART1_rx (dr1 + 256 * e1 :: dr2 + 256 * e2 :: rest) s)
    = Get_Distance (set_UART1_rx (dr1 :: dr2 :: rest) s).
Proof.
  intros dr1 dr2 e1 e2 rest s.
  rewrite (Get_Distance_runs (dr1 + 256 * e1) (dr2 + 256 * e2) rest) by reflexivity.
  rewrite (Get_Distance_runs dr1 dr2 rest) by reflexivity.
  assert (H1 : Z.land (dr1 + 256 * e1) 0xFF = Z.land dr1 0xFF).
  { rewrite !land_0xFF_mod. rewrite (Z.mul_comm 256). apply Z.mod_add. lia. }
  assert (H2 : Z.land (dr2 + 256 * e2) 0xFF = Z.land dr2 0xFF).
  { rewrite !land_0xFF_mod. rewrite (Z.mul_comm 256). apply Z.mod_add. lia. }
  unfold distance_of. now rewrite H1, H2.
Qed.

(** X4. With the armed flag of Security.c up, readings outside the threshold
    start no alert and leave the flag up: [System_Armed] queries again after
    each 100 ms delay and, once the sensor stops answering, is stuck in the
    receive that follows its last query. *)
Theorem quiet_readings_keep_polling :
  forall (fuel : nat) (answers : list (Z * Z)) (tail : list Z) (s : State),
    system_armed (Security_c s) <> 0 ->
    Forall quiet answers ->
    UART1_rx s = wire answers ++ tail ->
    (List.length tail < 2)%nat ->
    (List.length answers < fuel)%nat ->
    exists (s' : State) (waiting : list Event),
      System_Armed fuel s = Blocked s' /\
      system_armed (Security_c s') = system_armed (Security_c s) /\
      trace s' = trace s ++ quiet_polls answers ++ UART1_DR_write 0x55 :: waiting /\
      alert_invocations (trace s') = alert_invocations (trace s) /\
      sensor_polls (trace s') = (sensor_polls (trace s) + S (List.length answers))%nat.
Proof.
  intros fuel answers tail s Harmed Hq Hrx Htail Hfuel.
  destruct (System_Armed_while_starved answers fuel tail
              (set_Security_c (set_alert_active 0 (Security_c s)) s))
    as (s' & Hrun & Hsec & waiting & Htr & Hw1 & Hw2); try assumption.
  { unfold monitoring. cbn. apply Z.eqb_neq in Harmed. now rewrite Harmed. }
  exists s', waiting. split; [|split; [|split; [|split]]].
  - unfold System_Armed. erewrite bind_Done by reflexivity.
    unfold bind at 1. now rewrite Hrun.
  - now rewrite Hsec.
  - exact Htr.
  - rewrite Htr. cbn [set_Security_c trace].
    rewrite !alert_invocations_app, alert_invocations_quiet_polls.
    change (UART1_DR_write 0x55 :: waiting) with ([UART1_DR_write 0x55] ++ waiting).
    rewrite alert_invocations_app, Hw2. cbn. lia.
  - rewrite Htr. cbn [set_Security_c trace].
    rewrite !sensor_polls_app, sensor_polls_quiet_polls.
    change (UART1_DR_write 0x55 :: waiting) with ([UART1_DR_write 0x55] ++ waiting).
    rewrite sensor_polls_app, Hw1. cbn. lia.
Qed.

Lemma quiet_readings_keep_polling_witness :
  exists s',
    System_Armed 3 (mkState (mkStatics 1 0) (mkStatics 1 0) 8 [0; 200; 0; 0] [])
    = Blocked s' /\ system_armed (Security_c s') = 1.
Proof.
  destruct (quiet_readings_keep_polling 3 [(0, 200); (0, 0)] []
              (mkState (mkStatics 1 0) (mkStatics 1 0) 8 [0; 200; 0; 0] []))
    as (s' & waiting & Hrun & Hflag & _).
  - cbn. discriminate.
  - repeat constructor.
  - reflexivity.
  - cbn. lia.
  - cbn. lia.
  - exists s'. split; [exact Hrun|exact Hflag].
Defined.

(** X5. Entered with the armed flag of Security.c up, [System_Armed] returns
    only by way of a breach: if it returns, the consumed answers were some
    readings outside the threshold followed by one inside it, the alert
    sequence ran exactly once, and both statics of Security.c are clear. *)
Theorem System_Armed_returns_only_after_breach :
  forall (fuel : nat) (s s' : State),
    system_armed (Security_c s) <> 0 ->
    System_Armed fuel s = Done tt s' ->
    Security_c s' = mkStatics 0 0 /\
    alert_invocations (trace s') = S (alert_invocations (trace s)) /\
    exists (answers : list (Z * Z)) (dr1 dr2 : Z),
      Forall quiet answers /\
      0 < distance_of dr1 dr2 <= 50 /\
      UART1_rx s = wire answers ++ dr1 :: dr2 :: UART1_rx s'.
Proof.
  intros fuel s s' Harmed Hrun. unfold System_Armed in Hrun.
  erewrite bind_Done in Hrun by reflexivity.
  unfold bind at 1 in Hrun.
  destruct (System_Armed_while fuel
              (set_Security_c (set_alert_active 0 (Security_c s)) s))
    as [[] s1| |] eqn:Hloop; try discriminate.
  apply System_Armed_while_Done_inv in Hloop.
  2:{ unfold monitoring. cbn. apply Z.eqb_neq in Harmed. now rewrite Harmed. }
  destruct Hloop as (answers & dr1 & dr2 & Hq & Hb & Hwire & Hs1).
  rewrite Hs1 in Hrun.
  erewrite bind_Done in Hrun by reflexivity.
  cbn [emits set_Security_c Security_c system_armed Z.eqb] in Hrun.
  rewrite Display_Main_Menu_runs in Hrun. injection Hrun as <-.
  split; [reflexivity|]. split.
  - cbn [emits trace set_Security_c set_UART1_rx].
    rewrite !alert_invocations_app, alert_invocations_quiet_polls.
    cbn. lia.
  - exists answers, dr1, dr2. split; [exact Hq|].
    split; [now apply within_threshold_iff|].
    cbn [set_Security_c UART1_rx] in Hwire. rewrite Hwire.
    rewrite Hs1. reflexivity.
Qed.

Lemma System_Armed_returns_only_after_breach_witness :
  alert_invocations
    (trace (emits (poll_trace 0 30 ++ alert_trace ++ [SysTick_Delay1ms 100]
                   ++ main_menu_trace)
                  (mkState (mkStatics 0 0) (mkStatics 1 0) 8 [] [])))
  = 1%nat.
Proof.
  destruct (System_Armed_returns_only_after_breach 1
              (mkState (mkStatics 1 0) (mkStatics 1 0) 8 [0; 30] [])
              (emits (poll_trace 0 30 ++ alert_trace ++ [SysTick_Delay1ms 100]
                      ++ main_menu_trace)
                     (mkState (mkStatics 0 0) (mkStatics 1 0) 8 [] [])))
    as (_ & Hone & _).
  - cbn. discriminate.
  - vm_compute. reflexivity.
  - exact Hone.
Defined.

(** X6. Whatever masks are sampled, the armed flag of main.c and the stored
    mask follow a two-variable automaton: only an edge to 0x08 raises the
    flag, only an edge to 0x04 lowers it, and no other mask (the manual
    trigger and its alert sequence included) touches it. *)
Theorem menu_flag_follows_automaton :
  forall (fuel : nat) (samples rx : list Z),
  exists s',
    main fuel samples (reset rx) = Done tt s' /\
    (system_armed (main_c s'), last_button_status s')
    = fold_left menu_step samples (0, 0).
Proof.
  intros fuel samples rx. unfold main.
  erewrite bind_Done by (apply main_prologue_runs).
  destruct (main_while_menu_flag fuel samples (booted rx)) as (s' & Hrun & Hfold).
  { apply Reachable_quiescent, Reachable_booted. }
  exists s'. split; [exact Hrun|exact Hfold].
Qed.

(** X7. Whenever [main] samples the buttons, the LEDs were last set to
    all-off: no command leaves them lit. *)
Theorem LEDs_off_when_sampling :
  forall s : State,
    Reachable s -> last_leds (trace s) = Some EDUBASE_LED_ALL_OFF.
Proof.
  induction 1 as [rx s Hboot | fuel sample s s' Hreach IH Hturn].
  - rewrite main_prologue_runs in Hboot. injection Hboot as <-. reflexivity.
  - destruct (main_iteration_turn fuel sample s (Reachable_quiescent s Hreach))
      as (s1 & added & Hrun & Htr & Hin & _).
    rewrite Hrun in Hturn. injection Hturn as <-.
    rewrite Htr, last_leds_app.
    pose proof last_leds_turn_traces as Hall.
    rewrite Forall_forall in Hall.
    destruct (Hall added Hin) as [Hnone|Hoff].
    + now rewrite Hnone.
    + now rewrite Hoff.
Qed.

Lemma LEDs_off_when_sampling_witness :
  last_leds (trace (booted [])) = Some EDUBASE_LED_ALL_OFF.
Proof.
  apply LEDs_off_when_sampling. apply Reachable_booted.
Defined.

(** X8. Whenever [main] samples the buttons, the LCD calls made so far end
    with the drawing of the main menu: every command that writes to the LCD
    hands the display back to the menu. *)
Theorem LCD_shows_menu_when_sampling :
  forall s : State, Reachable s -> shows_main_menu (trace s).
Proof.
  induction 1 as [rx s Hboot | fuel sample s s' Hreach IH Hturn].
  - rewrite main_prologue_runs in Hboot. injection Hboot as <-.
    exists []. reflexivity.
  - destruct (main_iteration_turn fuel sample s (Reachable_quiescent s Hreach))
      as (s1 & added & Hrun & Htr & Hin & _).
    rewrite Hrun in Hturn. injection Hturn as <-.
    unfold shows_main_menu, lcd_calls in *. rewrite Htr, filter_app.
    pose proof lcd_calls_turn_traces as Hall.
    rewrite Forall_forall in Hall.
    destruct (Hall added Hin) as [Hnone|(before & Hmenu)]; unfold lcd_calls in *.
    + rewrite Hnone, app_nil_r. exact IH.
    + rewrite Hmenu. exists (filter is_lcd (trace s) ++ before).
      now rewrite app_assoc.
Qed.

Lemma LCD_shows_menu_when_sampling_witness : shows_main_menu (trace (booted [])).
Proof.
  apply LCD_shows_menu_when_sampling. apply Reachable_booted.
Defined.

(** X9. From a state in which [main] samples the buttons, one turn of its
    loop always completes, adds one of seven fixed traces, and spends
    between 10 and 8010 ms in [SysTick_Delay1ms]: exactly 10 ms when the mask
    is the stored one. *)
Theorem turn_delay_bounds :
  forall (fuel : nat) (sample : Z) (s : State),
    Reachable s ->
    exists (s' : State) (added : list Event),
      main_iteration fuel sample s = Done tt s' /\
      trace s' = trace s ++ added /\
      In added turn_traces /\
      10 <= delay_ms added <= 8010 /\
      (cast_uint8 sample = last_button_status s -> delay_ms added = 10).
Proof.
  intros fuel sample s Hreach.
  destruct (main_iteration_turn fuel sample s (Reachable_quiescent s Hreach))
    as (s' & added & Hrun & Htr & Hin & Hsame & _).
  exists s', added. split; [exact Hrun|]. split; [exact Htr|].
  split; [exact Hin|]. split.
  - pose proof delay_ms_turn_traces as Hall.
    rewrite Forall_forall in Hall. exact (Hall added Hin).
  - intros Heq. now rewrite (Hsame Heq).
Qed.

Lemma turn_delay_bounds_witness :
  exists (s' : State) (added : list Event),
    main_iteration 0 0 (booted []) = Done tt s' /\ delay_ms added = 10.
Proof.
  destruct (turn_delay_bounds 0 0 (booted []) (Reachable_booted []))
    as (s' & added & Hrun & _ & _ & _ & Hsame).
  exists s', added. split; [exact Hrun|]. apply Hsame. reflexivity.
Defined.

(** X10. Whatever the registers held, after [UART1_Init] the baud divisors
    are 325 and 33, the line is set to 8-bit words with FIFOs, one stop bit
    and no parity, the UART is enabled, both clocks are gated on, and pins 5
    and 7 of port C have their alternate function and digital enable set. *)
Theorem UART1_Init_settings :
  forall r : UART1_c.registers,
    let r' := UART1_c.UART1_Init r in
    UART1_c.UART1_IBRD r' = 325 /\
    UART1_c.UART1_FBRD r' = 33 /\
    Z.testbit (UART1_c.UART1_LCRH r') 6 = true /\
    Z.testbit (UART1_c.UART1_LCRH r') 5 = true /\
    Z.testbit (UART1_c.UART1_LCRH r') 4 = true /\
    Z.testbit (UART1_c.UART1_LCRH r') 3 = false /\
    Z.testbit (UART1_c.UART1_LCRH r') 1 = false /\
    Z.testbit (UART1_c.UART1_CTL r') 0 = true /\
    Z.testbit (UART1_c.SYSCTL_RCGCUART r') 1 = true /\
    Z.testbit (UART1_c.SYSCTL_RCGCGPIO r') 2 = true /\
    Z.testbit (UART1_c.GPIOC_AFSEL r') 5 = true /\
    Z.testbit (UART1_c.GPIOC_AFSEL r') 7 = true /\
    Z.testbit (UART1_c.GPIOC_DEN r') 5 = true /\
    Z.testbit (UART1_c.GPIOC_DEN r') 7 = true.
Proof.
  intros r r'. unfold r'.
  rewrite !UART1_Init_LCRH_bit, UART1_Init_CTL_bit, UART1_Init_RCGCUART_bit,
    UART1_Init_RCGCGPIO_bit, !UART1_Init_AFSEL_bit, !UART1_Init_DEN_bit by lia.
  cbn. rewrite !orb_true_r, !andb_false_r. repeat split.
Qed.

(** X11. On 32-bit register contents the whole of [UART1_Init] amounts to one
    update per register: bits are only ever set in the clock, control,
    alternate-function and digital-enable registers (disabling and then
    enabling the UART leaves bit 0 of CTL set and the rest as it was), LCRH
    loses bits 1 and 3 and gains bits 4 to 6, and PCTL is masked with
    0x0FF0FFFF and or-ed with 0x20002000; every other bit is kept. *)
Theorem UART1_Init_net_effect :
  forall r : UART1_c.registers,
    UART1_c.in_range r ->
    UART1_c.UART1_Init r =
    UART1_c.mkRegisters
      (Z.lor (UART1_c.SYSCTL_RCGCUART r) 0x02)
      (Z.lor (UART1_c.SYSCTL_RCGCGPIO r) 0x04)
      (Z.lor (UART1_c.UART1_CTL r) 0x01)
      325
      33
      (Z.lor (Z.land (UART1_c.UART1_LCRH r) (Z.lnot 0x0A)) 0x70)
      (Z.lor (UART1_c.GPIOC_AFSEL r) 0xA0)
      (Z.lor (Z.land (UART1_c.GPIOC_PCTL r) 0x0FF0FFFF) 0x20002000)
      (Z.lor (UART1_c.GPIOC_DEN r) 0xA0).
Proof.
  intros r (H1 & H2 & H3 & _ & _ & H6 & H7 & H8 & H9).
  assert (Hhigh : forall c n, 0 <= c < 4294967296 -> 32 <= n -> Z.testbit c n = false)
    by (intros; now apply in_range_bit).
  apply registers_ext;
    [apply Z.bits_inj'; intros n Hn | apply Z.bits_inj'; intros n Hn
    |apply Z.bits_inj'; intros n Hn | apply UART1_Init_IBRD
    |apply UART1_Init_FBRD | apply Z.bits_inj'; intros n Hn
    |apply Z.bits_inj'; intros n Hn | apply Z.bits_inj'; intros n Hn
    |apply Z.bits_inj'; intros n Hn];
    cbn [UART1_c.SYSCTL_RCGCUART UART1_c.SYSCTL_RCGCGPIO
         UART1_c.UART1_CTL UART1_c.UART1_LCRH
         UART1_c.GPIOC_AFSEL UART1_c.GPIOC_PCTL UART1_c.GPIOC_DEN].
  - rewrite UART1_Init_RCGCUART_bit, Z.lor_spec by lia.
    destruct (Z.ltb_spec n 32); [reflexivity|].
    now rewrite !Hhigh by lia.
  - rewrite UART1_Init_RCGCGPIO_bit, Z.lor_spec by lia.
    destruct (Z.ltb_spec n 32); [reflexivity|].
    now rewrite !Hhigh by lia.
  - rewrite UART1_Init_CTL_bit, Z.lor_spec by lia.
    destruct (Z.ltb_spec n 32); [reflexivity|].
    now rewrite !Hhigh by lia.
  - rewrite UART1_Init_LCRH_bit, Z.lor_spec, Z.land_spec, Z.lnot_spec by lia.
    destruct (Z.ltb_spec n 32) as [Hlt|Hge].
    + generalize (Z.testbit (UART1_c.UART1_LCRH r) n). intros b.
      each_bit n (conj Hn Hlt) b.
    + rewrite (Hhigh (UART1_c.UART1_LCRH r)), (Hhigh 0x70) by lia. reflexivity.
  - rewrite UART1_Init_AFSEL_bit, Z.lor_spec by lia.
    destruct (Z.ltb_spec n 32); [reflexivity|].
    now rewrite !Hhigh by lia.
  - rewrite UART1_Init_PCTL_bit, Z.lor_spec, Z.land_spec by lia.
    destruct (Z.ltb_spec n 32) as [Hlt|Hge].
    + generalize (Z.testbit (UART1_c.GPIOC_PCTL r) n). intros b.
      each_bit n (conj Hn Hlt) b.
    + rewrite (Hhigh (UART1_c.GPIOC_PCTL r)), (Hhigh 0x20002000) by lia.
      reflexivity.
  - rewrite UART1_Init_DEN_bit, Z.lor_spec by lia.
    destruct (Z.ltb_spec n 32); [reflexivity|].
    now rewrite !Hhigh by lia.
Qed.

Lemma UART1_Init_net_effect_witness :
  UART1_c.UART1_Init (UART1_c.mkRegisters 0 0 0 0 0 0 0 0 0)
  = UART1_c.mkRegisters 0x02 0x04 0x01 325 33 0x70 0xA0 0x20002000 0xA0.
Proof.
  rewrite (UART1_Init_net_effect (UART1_c.mkRegisters 0 0 0 0 0 0 0 0 0)).
  - reflexivity.
  - repeat split; cbn; lia.
Defined.

(** Bits of one port-mux field before and after [UART1_Init]. *)
Ltac mux_field :=
  apply Z.bits_inj'; intros n Hn;
  repeat rewrite Z.lor_spec; rewrite !PMC_bit by lia;
  destruct (Z.ltb_spec n 4) as [Hlt|Hge];
  [ assert (Hcases : n = 0 \/ n = 1 \/ n = 2 \/ n = 3) by lia;
    destruct Hcases as [ -> | [ -> | [ -> | -> ] ] ];
    rewrite UART1_Init_PCTL_bit by lia;
    match goal with
    | |- context [Z.testbit (UART1_c.GPIOC_PCTL ?r) ?k] =>
        generalize (Z.testbit (UART1_c.GPIOC_PCTL r) k)
    end;
    intros b; cbn; destruct b; reflexivity
  | cbn [andb orb]; try rewrite (nibble_high_bits 2 n) by lia;
    try rewrite Z.bits_0; reflexivity ].

(** X12. The port-mux register after [UART1_Init], field by field: pin 7 is
    set to function 2, the field of pin 4 is cleared, 2 is or-ed into the
    field of pin 3, and the fields of pins 0, 1, 2, 5 and 6 are what they
    were; in particular the field of pin 5 is never written. *)
Theorem UART1_Init_port_mux :
  forall r : UART1_c.registers,
    let old := UART1_c.GPIOC_PCTL r in
    let new := UART1_c.GPIOC_PCTL (UART1_c.UART1_Init r) in
    UART1_c.PMC 7 new = 2 /\
    UART1_c.PMC 6 new = UART1_c.PMC 6 old /\
    UART1_c.PMC 5 new = UART1_c.PMC 5 old /\
    UART1_c.PMC 4 new = 0 /\
    UART1_c.PMC 3 new = Z.lor (UART1_c.PMC 3 old) 2 /\
    UART1_c.PMC 2 new = UART1_c.PMC 2 old /\
    UART1_c.PMC 1 new = UART1_c.PMC 1 old /\
    UART1_c.PMC 0 new = UART1_c.PMC 0 old.
Proof.
  intros r old new. unfold old, new. repeat split; mux_field.
Qed.

(** X13. [UART1_Init] is idempotent: running it again on the registers it
    produced changes nothing, whatever the registers held at first. *)
Theorem UART1_Init_idempotent :
  forall r : UART1_c.registers,
    UART1_c.UART1_Init (UART1_c.UART1_Init r) = UART1_c.UART1_Init r.
Proof.
  intros r.
  apply registers_ext;
    [apply Z.bits_inj'; intros n Hn | apply Z.bits_inj'; intros n Hn
    |apply Z.bits_inj'; intros n Hn | now rewrite !UART1_Init_IBRD
    |now rewrite !UART1_Init_FBRD | apply Z.bits_inj'; intros n Hn
    |apply Z.bits_inj'; intros n Hn | apply Z.bits_inj'; intros n Hn
    |apply Z.bits_inj'; intros n Hn].
  - rewrite !UART1_Init_RCGCUART_bit by lia.
    destruct (n <? 32), (Z.testbit (UART1_c.SYSCTL_RCGCUART r) n),
      (Z.testbit 2 n); reflexivity.
  - rewrite !UART1_Init_RCGCGPIO_bit by lia.
    destruct (n <? 32), (Z.testbit (UART1_c.SYSCTL_RCGCGPIO r) n),
      (Z.testbit 4 n); reflexivity.
  - rewrite !UART1_Init_CTL_bit by lia.
    destruct (n <? 32), (Z.testbit (UART1_c.UART1_CTL r) n),
      (Z.testbit 1 n); reflexivity.
  - rewrite !UART1_Init_LCRH_bit by lia.
    destruct (n <? 32), (Z.testbit (UART1_c.UART1_LCRH r) n), (Z.testbit 96 n),
      (Z.testbit 16 n), (Z.testbit 8 n), (Z.testbit 2 n); reflexivity.
  - rewrite !UART1_Init_AFSEL_bit by lia.
    destruct (n <? 32), (Z.testbit (UART1_c.GPIOC_AFSEL r) n),
      (Z.testbit 160 n); reflexivity.
  - rewrite !UART1_Init_PCTL_bit by lia.
    destruct (n <? 32), (Z.testbit (UART1_c.GPIOC_PCTL r) n),
      (Z.testbit 4027514880 n), (Z.testbit 536879104 n); reflexivity.
  - rewrite !UART1_Init_DEN_bit by lia.
    destruct (n <? 32), (Z.testbit (UART1_c.GPIOC_DEN r) n),
      (Z.testbit 160 n); reflexivity.
Qed.

(** X14. [UART1_Input_String] is a line editor: reading up to the first
    carriage return, it leaves in the buffer the characters typed, each
    backspace having removed the last one kept and characters beyond the
    buffer size having been dropped, followed by a zero byte; what follows
    the carriage return stays in the receive queue. *)
Theorem UART1_Input_String_edits_line :
  forall (CR BS : Z) (fuel : nat) (m : UART1_c.memory) (p size : Z)
         (line : list Z) (cr : Z) (rest : list Z) (s : State),
    UART1_rx s = line ++ cr :: rest ->
    Forall (fun dr => received dr <> CR) line ->
    received cr = CR ->
    (List.length line <= fuel)%nat ->
    let text := typed BS (cast_uint16 size) [] (map received line) in
    exists (n : Z) (m' : UART1_c.memory) (s' : State),
      UART1_c.UART1_Input_String CR BS fuel m p size s = Done (n, m') s' /\
      UART1_rx s' = rest /\
      holds_text m' p text /\
      m' (p + Z.of_nat (List.length text)) = 0.
Proof.
  intros CR BS fuel m p size line cr rest s Hrx Hline Hcr Hfuel text.
  destruct (UART1_Input_String_runs CR BS fuel m p size line cr rest s
              Hrx Hline Hcr Hfuel)
    as (m' & Hrun & Htext & Hend & _).
  eexists; exists m'; eexists. split; [exact Hrun|].
  split; [reflexivity|]. split; [exact Htext|exact Hend].
Qed.

Lemma UART1_Input_String_edits_line_witness :
  exists (n : Z) (m' : UART1_c.memory) (s' : State),
    UART1_c.UART1_Input_String 13 8 4 (fun _ => 0xEE) 100 16
      (reset [72; 105; 8; 111; 13; 7])
    = Done (n, m') s' /\
    UART1_rx s' = [7] /\ m' 100 = 72 /\ m' 101 = 111 /\ m' 102 = 0.
Proof.
  destruct (UART1_Input_String_edits_line 13 8 4 (fun _ => 0xEE) 100 16
              [72; 105; 8; 111] 13 [7] (reset [72; 105; 8; 111; 13; 7]))
    as (n & m' & s' & Hrun & Hrx & Htext & Hend).
  - reflexivity.
  - repeat constructor; vm_compute; discriminate.
  - reflexivity.
  - cbn. lia.
  - exists n, m', s'. split; [exact Hrun|]. split; [exact Hrx|].
    split; [exact (Htext 0%nat ltac:(vm_compute; lia))|].
    split; [exact (Htext 1%nat ltac:(vm_compute; lia))|exact Hend].
Defined.

(** X15. [UART1_Input_String] keeps at most [buffer_size] characters and
    changes no memory below the buffer or beyond the byte that follows its
    [buffer_size] characters: the terminating zero may land on that byte,
    one past the size it was given, and nowhere further. *)
Theorem UART1_Input_String_bounds :
  forall (CR BS : Z) (fuel : nat) (m : UART1_c.memory) (p size : Z)
         (line : list Z) (cr : Z) (rest : list Z) (s : State),
    UART1_rx s = line ++ cr :: rest ->
    Forall (fun dr => received dr <> CR) line ->
    received cr = CR ->
    (List.length line <= fuel)%nat ->
    let cap := cast_uint16 size in
    let text := typed BS cap [] (map received line) in
    exists (n : Z) (m' : UART1_c.memory) (s' : State),
      UART1_c.UART1_Input_String CR BS fuel m p size s = Done (n, m') s' /\
      Z.of_nat (List.length text) <= cap /\
      (forall q, q < p \/ p + cap < q -> m' q = m q).
Proof.
  intros CR BS fuel m p size line cr rest s Hrx Hline Hcr Hfuel cap text.
  destruct (UART1_Input_String_runs CR BS fuel m p size line cr rest s
              Hrx Hline Hcr Hfuel)
    as (m' & Hrun & _ & _ & Hle & Hframe).
  eexists; exists m'; eexists. split; [exact Hrun|].
  split; [exact Hle|exact Hframe].
Qed.

Lemma UART1_Input_String_bounds_witness :
  exists (n : Z) (m' : UART1_c.memory) (s' : State),
    UART1_c.UART1_Input_String 13 8 4 (fun _ => 0xEE) 100 2
      (reset [72; 105; 33; 13])
    = Done (n, m') s' /\ m' 99 = 0xEE /\ m' 103 = 0xEE.
Proof.
  destruct (UART1_Input_String_bounds 13 8 4 (fun _ => 0xEE) 100 2
              [72; 105; 33] 13 [] (reset [72; 105; 33; 13]))
    as (n & m' & s' & Hrun & _ & Hframe).
  - reflexivity.
  - repeat constructor; vm_compute; discriminate.
  - reflexivity.
  - cbn. lia.
  - exists n, m', s'. split; [exact Hrun|].
    split; apply Hframe; vm_compute; [left|right]; reflexivity.
Defined.

(** X16. The value [UART1_Input_String] returns counts every character ever
    taken into the buffer, erased ones included: it is the length of the
    text left in the buffer plus the number of backspaces echoed (modulo
    2^32), and the echoed backspaces are all the routine sends. *)
Theorem UART1_Input_String_return_value :
  forall (CR BS : Z) (fuel : nat) (m : UART1_c.memory) (p size : Z)
         (line : list Z) (cr : Z) (rest : list Z) (s : State),
    UART1_rx s = line ++ cr :: rest ->
    Forall (fun dr => received dr <> CR) line ->
    received cr = CR ->
    (List.length line <= fuel)%nat ->
    let cap := cast_uint16 size in
    let text := typed BS cap [] (map received line) in
    let echoes := erased BS cap [] (map received line) in
    exists (m' : UART1_c.memory) (s' : State),
      UART1_c.UART1_Input_String CR BS fuel m p size s
      = Done (cast_uint32 (Z.of_nat (List.length text) + Z.of_nat echoes), m') s' /\
      sent (trace s') = sent (trace s) ++ repeat (cast_char BS) echoes.
Proof.
  intros CR BS fuel m p size line cr rest s Hrx Hline Hcr Hfuel cap text echoes.
  destruct (UART1_Input_String_runs CR BS fuel m p size line cr rest s
              Hrx Hline Hcr Hfuel)
    as (m' & Hrun & _).
  exists m'; eexists. split.
  - rewrite Hrun. do 3 f_equal.
    pose proof (typed_length BS (cast_uint16 size) (map received line) []) as Hlen.
    cbn [List.length] in Hlen. unfold text, echoes, cap. lia.
  - cbn [emits trace set_UART1_rx]. rewrite !sent_app, sent_line_trace.
    cbn [sent]. now rewrite app_nil_r.
Qed.

Lemma UART1_Input_String_return_value_witness :
  exists (m' : UART1_c.memory) (s' : State),
    UART1_c.UART1_Input_String 13 8 4 (fun _ => 0xEE) 100 16
      (reset [72; 105; 8; 111; 13; 7])
    = Done (3, m') s' /\ sent (trace s') = [8].
Proof.
  destruct (UART1_Input_String_return_value 13 8 4 (fun _ => 0xEE) 100 16
              [72; 105; 8; 111] 13 [7] (reset [72; 105; 8; 111; 13; 7]))
    as (m' & s' & Hrun & Hsent).
  - reflexivity.
  - repeat constructor; vm_compute; discriminate.
  - reflexivity.
  - cbn. lia.
  - exists m', s'. split; [exact Hrun|exact Hsent].
Defined.

(** X17. A line without backspaces is stored as typed, cut at [buffer_size]
    characters, and its kept length is what is returned; nothing is sent.
    When the line is at least as long as the buffer, the terminating zero is
    written at offset [buffer_size], the byte after the last one the size
    covers. *)
Theorem UART1_Input_String_plain_line :
  forall (CR BS : Z) (fuel : nat) (m : UART1_c.memory) (p size : Z)
         (line : list Z) (cr : Z) (rest : list Z) (s : State),
    UART1_rx s = line ++ cr :: rest ->
    Forall (fun dr => received dr <> CR) line ->
    Forall (fun dr => received dr <> BS) line ->
    received cr = CR ->
    (List.length line <= fuel)%nat ->
    let cap := cast_uint16 size in
    let kept := firstn (Z.to_nat cap) (map received line) in
    exists (m' : UART1_c.memory) (s' : State),
      UART1_c.UART1_Input_String CR BS fuel m p size s
      = Done (cast_uint32 (Z.of_nat (List.length kept)), m') s' /\
      holds_text m' p kept /\
      m' (p + Z.of_nat (List.length kept)) = 0 /\
      sent (trace s') = sent (trace s) /\
      (cap <= Z.of_nat (List.length line) -> m' (p + cap) = 0).
Proof.
  intros CR BS fuel m p size line cr rest s Hrx Hline Hplain Hcr Hfuel cap kept.
  destruct (UART1_Input_String_runs CR BS fuel m p size line cr rest s
              Hrx Hline Hcr Hfuel)
    as (m' & Hrun & Htext & Hend & _).
  assert (Hcap : 0 <= cap) by (apply Z.mod_pos_bound; lia).
  assert (Hplain' : Forall (fun c => c <> BS) (map received line)).
  { apply Forall_map. exact Hplain. }
  destruct (typed_plain BS cap (map received line) Hplain' []) as (Htyped & Herased).
  cbn [List.length app] in Htyped. rewrite Z.sub_0_r in Htyped.
  fold cap in Hrun, Htext, Hend. rewrite Htyped in Htext, Hend.
  pose proof (typed_length BS cap (map received line) []) as Hlen.
  rewrite Htyped, Herased in Hlen. cbn [List.length] in Hlen.
  exists m'; eexists. split; [|split; [|split; [|split]]].
  - rewrite Hrun. do 3 f_equal. unfold kept. lia.
  - exact Htext.
  - exact Hend.
  - cbn [emits trace set_UART1_rx]. rewrite !sent_app, sent_line_trace, Herased.
    cbn [sent repeat]. now rewrite !app_nil_r.
  - intros Hlong. unfold kept in Hend.
    rewrite length_firstn, length_map in Hend.
    replace (Z.of_nat (Nat.min (Z.to_nat cap) (List.length line))) with cap in Hend
      by lia.
    exact Hend.
Qed.

Lemma UART1_Input_String_plain_line_witness :
  exists (m' : UART1_c.memory) (s' : State),
    UART1_c.UART1_Input_String 13 8 4 (fun _ => 0xEE) 100 2
      (reset [72; 105; 33; 13])
    = Done (2, m') s' /\ m' 102 = 0.
Proof.
  destruct (UART1_Input_String_plain_line 13 8 4 (fun _ => 0xEE) 100 2
              [72; 105; 33] 13 [] (reset [72; 105; 33; 13]))
    as (m' & s' & Hrun & _ & _ & _ & Hlong).
  - reflexivity.
  - repeat constructor; vm_compute; discriminate.
  - repeat constructor; vm_compute; discriminate.
  - reflexivity.
  - cbn. lia.
  - exists m', s'. split; [exact Hrun|]. apply Hlong. vm_compute. discriminate.
Defined.

(** X18. [UART1_Input_String] has no way out but a carriage return: when the
    receive queue holds none, the routine consumes the whole queue and then
    waits for ever. *)
Theorem UART1_Input_String_waits_for_CR :
  forall (CR BS : Z) (fuel : nat) (m : UART1_c.memory) (p size : Z) (s : State),
    Forall (fun dr => received dr <> CR) (UART1_rx s) ->
    (List.length (UART1_rx s) <= fuel)%nat ->
    exists s',
      UART1_c.UART1_Input_String CR BS fuel m p size s = Blocked s' /\
      UART1_rx s' = [].
Proof.
  intros CR BS fuel m p size s Hline Hfuel.
  assert (Hrun :
    (character <- UART1_Input_Character ;;
     UART1_c.UART1_Input_String_while CR BS fuel (cast_uint16 size) character
       (UART1_c.mkLocals m p 0 0)) s
    = Blocked (emits (line_trace BS (cast_uint16 size) [] (UART1_rx s))
                     (set_UART1_rx [] s))).
  { apply (UART1_Input_String_loop_starved CR BS (cast_uint16 size) m p
             (UART1_rx s) fuel (UART1_c.mkLocals m p 0 0) [] 0 s);
      try assumption; try reflexivity.
    repeat split; cbn; try lia.
    - apply Z.mod_pos_bound. lia.
    - intros i Hi. cbn in Hi. lia. }
  exists (emits (line_trace BS (cast_uint16 size) [] (UART1_rx s))
                (set_UART1_rx [] s)).
  split; [|reflexivity].
  unfold UART1_c.UART1_Input_String. unfold bind in Hrun |- *.
  destruct (UART1_Input_Character s) as [c s1|s1|s1].
  - now rewrite Hrun.
  - injection Hrun as <-. reflexivity.
  - discriminate.
Qed.

Lemma UART1_Input_String_waits_for_CR_witness :
  exists s',
    UART1_c.UART1_Input_String 13 8 2 (fun _ => 0) 100 16 (reset [72; 105])
    = Blocked s' /\ UART1_rx s' = [].
Proof.
  apply (UART1_Input_String_waits_for_CR 13 8 2 (fun _ => 0) 100 16
           (reset [72; 105])).
  - repeat constructor; vm_compute; discriminate.
  - cbn. lia.
Defined.

(** X19. [UART1_Output_String] sends the characters of a zero-terminated
    string in order, the terminator excluded, and reads nothing. *)
Theorem UART1_Output_String_sends_text :
  forall (text : list Z) (fuel : nat) (m : UART1_c.memory) (pt : Z) (s : State),
    holds_text m pt text ->
    Forall (fun c => c <> 0) text ->
    m (pt + Z.of_nat (List.length text)) = 0 ->
    (List.length text <= fuel)%nat ->
    exists s',
      UART1_c.UART1_Output_String fuel m pt s = Done tt s' /\
      trace s' = trace s ++ map UART1_DR_write text /\
      sent (trace s') = sent (trace s) ++ text /\
      UART1_rx s' = UART1_rx s.
Proof.
  intros text fuel m pt s Htext Hnz Hend Hfuel.
  eexists. split; [apply (UART1_Output_String_runs text); assumption|].
  split; [reflexivity|]. split; [|reflexivity].
  cbn [emits trace]. rewrite sent_app. f_equal.
  clear. induction text as [|c text IH]; [reflexivity|].
  cbn [map sent]. now rewrite IH.
Qed.

Lemma UART1_Output_String_sends_text_witness :
  exists s',
    UART1_c.UART1_Output_String 2
      (fun q => if q =? 100 then 79 else if q =? 101 then 75 else 0) 100
      (reset [])
    = Done tt s' /\ sent (trace s') = [79; 75].
Proof.
  destruct (UART1_Output_String_sends_text [79; 75] 2
              (fun q => if q =? 100 then 79 else if q =? 101 then 75 else 0)
              100 (reset []))
    as (s' & Hrun & _ & Hsent & _).
  - intros i Hi. destruct i as [|[|i]]; [reflexivity|reflexivity|cbn in Hi; lia].
  - repeat constructor; discriminate.
  - reflexivity.
  - cbn. lia.
  - exists s'. split; [exact Hrun|exact Hsent].
Defined.

(** X20. Round trip: when the text left in the buffer holds no zero
    character, sending the buffer with [UART1_Output_String] right after
    [UART1_Input_String] filled it transmits exactly the edited line. *)
Theorem typed_line_is_sent_back :
  forall (CR BS : Z) (fuel fuel' : nat) (m : UART1_c.memory) (p size : Z)
         (line : list Z) (cr : Z) (rest : list Z) (s : State),
    UART1_rx s = line ++ cr :: rest ->
    Forall (fun dr => received dr <> CR) line ->
    received cr = CR ->
    (List.length line <= fuel)%nat ->
    let text := typed BS (cast_uint16 size) [] (map received line) in
    Forall (fun c => c <> 0) text ->
    (List.length text <= fuel')%nat ->
    exists (n : Z) (m' : UART1_c.memory) (s1 s2 : State),
      UART1_c.UART1_Input_String CR BS fuel m p size s = Done (n, m') s1 /\
      UART1_c.UART1_Output_String fuel' m' p s1 = Done tt s2 /\
      sent (trace s2) = sent (trace s1) ++ text.
Proof.
  intros CR BS fuel fuel' m p size line cr rest s Hrx Hline Hcr Hfuel text Hnz Hfuel'.
  destruct (UART1_Input_String_runs CR BS fuel m p size line cr rest s
              Hrx Hline Hcr Hfuel)
    as (m' & Hrun & Htext & Hend & _).
  eexists; exists m'; eexists; eexists. split; [exact Hrun|]. split.
  - apply (UART1_Output_String_runs text);
      [exact Htext|exact Hnz|exact Hend|exact Hfuel'].
  - cbn [emits trace]. rewrite (sent_app _ (map UART1_DR_write text)). f_equal.
    clear. induction text as [|c text IH]; [reflexivity|].
    cbn [map sent]. now rewrite IH.
Qed.

Lemma typed_line_is_sent_back_witness :
  exists (n : Z) (m' : UART1_c.memory) (s1 s2 : State),
    UART1_c.UART1_Input_String 13 8 4 (fun _ => 0xEE) 100 16
      (reset [72; 105; 8; 111; 13; 7])
    = Done (n, m') s1 /\
    UART1_c.UART1_Output_String 2 m' 100 s1 = Done tt s2 /\
    sent (trace s2) = sent (trace s1) ++ [72; 111].
Proof.
  apply (typed_line_is_sent_back 13 8 4 2 (fun _ => 0xEE) 100 16
           [72; 105; 8; 111] 13 [7] (reset [72; 105; 8; 111; 13; 7])).
  - reflexivity.
  - repeat constructor; vm_compute; discriminate.
  - reflexivity.
  - cbn. lia.
  - repeat constructor; vm_compute; discriminate.
  - vm_compute. lia.
Defined.

(** X21. Entered with the armed flag of Security.c up, a reading [d] with
    [0 < d <= 50], arriving after any number of readings outside the
    threshold, makes [System_Armed] run the alert sequence exactly once and
    return; the sensor is queried once per reading and never again once the
    alert has begun (the rest of the receive queue is left untouched). *)
Theorem breach_triggers_one_alert :
  forall (fuel : nat) (answers : list (Z * Z)) (dr1 dr2 : Z) (rest : list Z)
         (s : State),
    system_armed (Security_c s) <> 0 ->
    Forall quiet answers ->
    0 < distance_of dr1 dr2 <= 50 ->
    UART1_rx s = wire answers ++ dr1 :: dr2 :: rest ->
    (List.length answers < fuel)%nat ->
    let during := quiet_polls answers ++ poll_trace dr1 dr2 in
    let after := alert_trace ++ [SysTick_Delay1ms 100] ++ main_menu_trace in
    System_Armed fuel s =
      Done tt (emits (during ++ after)
                     (set_Security_c (mkStatics 0 0) (set_UART1_rx rest s))) /\
    alert_invocations (during ++ after) = 1%nat /\
    sensor_polls during = S (List.length answers) /\
    sensor_polls after = 0%nat.
Proof.
  intros fuel answers dr1 dr2 rest s Harmed Hquiet Hbreach Hrx Hfuel during after.
  split; [|split; [|split]].
  - unfold System_Armed.
    erewrite bind_Done by reflexivity.
    erewrite bind_Done.
    2:{ apply (System_Armed_while_polls answers fuel dr1 dr2 rest).
        - unfold monitoring. cbn. apply Z.eqb_neq in Harmed. now rewrite Harmed.
        - exact Hquiet.
        - now apply within_threshold_iff.
        - exact Hrx.
        - exact Hfuel. }
    erewrite bind_Done by reflexivity.
    cbn [emits set_Security_c Security_c system_armed Z.eqb].
    rewrite Display_Main_Menu_runs.
    f_equal. unfold during, after, emits, set_Security_c, set_UART1_rx.
    cbn -[alert_trace main_menu_trace].
    f_equal. rewrite <- !app_assoc. reflexivity.
  - unfold during, after.
    rewrite !alert_invocations_app, alert_invocations_quiet_polls.
    reflexivity.
  - unfold during. rewrite sensor_polls_app, sensor_polls_quiet_polls.
    cbn. lia.
  - reflexivity.
Qed.

Lemma breach_triggers_one_alert_witness :
  exists s',
    System_Armed 2 (mkState (mkStatics 1 0) (mkStatics 1 0) 8 [0; 200; 0; 30; 7] [])
    = Done tt s' /\ UART1_rx s' = [7] /\ alert_invocations (trace s') = 1%nat.
Proof.
  destruct (breach_triggers_one_alert 2 [(0, 200)] 0 30 [7]
              (mkState (mkStatics 1 0) (mkStatics 1 0) 8 [0; 200; 0; 30; 7] []))
    as (Hrun & Hone & _).
  - cbn. discriminate.
  - repeat constructor.
  - vm_compute. split; [reflexivity|discriminate].
  - reflexivity.
  - cbn. lia.
  - eexists. split; [exact Hrun|]. split; [reflexivity|exact Hone].
Defined.

(** X22. The alert choreography, from any state: banner for 3000 ms, exactly
    ten on/A4 - off/G4 cycles, then both statics of Security.c cleared, LEDs
    and buzzer off, main menu redrawn.  [Intruder_Alert] always returns,
    reads no button and no sensor, and leaves the statics of main.c, the
    stored mask and the receive queue as they were. *)
Theorem Intruder_Alert_choreography :
  forall s : State,
    Intruder_Alert s =
      Done tt (mkState (mkStatics 0 0) (main_c s) (last_button_status s)
                 (UART1_rx s)
                 (trace s
                  ++ [ EduBase_LCD_Clear_Display;
                       EduBase_LCD_Set_Cursor 0 0;
                       EduBase_LCD_Display_String "Intruder";
                       EduBase_LCD_Set_Cursor 0 1;
                       EduBase_LCD_Display_String "Detected";
                       SysTick_Delay1ms 3000 ]
                  ++ times 10 [ EduBase_LEDs_Output EDUBASE_LED_ALL_ON;
                                Play_Note A4_NOTE 50;
                                SysTick_Delay1ms 250;
                                EduBase_LEDs_Output EDUBASE_LED_ALL_OFF;
                                Play_Note G4_NOTE 50;
                                SysTick_Delay1ms 250 ]
                  ++ [ EduBase_LEDs_Output EDUBASE_LED_ALL_OFF;
                       Buzzer_Output BUZZER_OFF ]
                  ++ main_menu_trace)) /\
    List.length (filter is_all_on alert_trace) = 10%nat.
Proof.
  intros s. split; [|reflexivity].
  rewrite Intruder_Alert_runs. reflexivity.
Qed.
